(** * Esp_ble_ota: the OTA transfer engine of [src/index.tsx]

    A shallow embedding of

    - the framing of the firmware image into sectors and packets
      ([runOta], lines 133-147), as pure functions on byte lists;
    - the acknowledgement registry ([ackResolvers], [wait], [handleAck]),
      as a finite map from key strings to resolvers;
    - the [runOta] coroutine, as a state machine with one state per
      [await] that is driven by the events the browser delivers: a GATT
      write completes or fails, the file is read, a notification arrives,
      a millisecond passes, the device disconnects.

    Bytes are integers in 0..255. A resolver is named by the handle of
    the timeout timer its closure captures, which also names its promise.
    Time is a clock in milliseconds that advances by [EvTick]; a timer
    fires on the tick that reaches its due time. Each event handler runs
    to the next [await] of the coroutine, as the JavaScript event loop
    does. The model follows one invocation of [runOta] at a time. *)

From Stdlib Require Import ZArith Floats Lia.
From stdpp Require Import gmap strings pretty list fin_maps.

Open Scope nat_scope.

(** ** Byte buffers *)

(** [Uint8Array.prototype.slice(a, b)] for non-negative indices: both
    ends are clamped to the length and an empty range gives []. *)
Definition slice {A : Type} (l : list A) (a b : nat) : list A :=
  take (b - a) (drop a l).

(** [DataView.setUint8]: the value is stored modulo 256. *)
Definition u8 (v : Z) : Z := Z.land v 255.

(** [DataView.setUint16(_, v, true)]: low byte first. *)
Definition u16le (v : Z) : list Z :=
  [Z.land v 255; Z.land (Z.shiftr v 8) 255].

(** [DataView.setUint32(_, v, true)]. *)
Definition u32le (v : Z) : list Z :=
  [Z.land v 255; Z.land (Z.shiftr v 8) 255;
   Z.land (Z.shiftr v 16) 255; Z.land (Z.shiftr v 24) 255].

(** [DataView.getUint16(off, true)]; [None] is the RangeError of a read
    past the end of the view. *)
Definition getUint16 (v : list Z) (off : nat) : option Z :=
  match v !! off, v !! S off with
  | Some lo, Some hi => Some (Z.lor lo (Z.shiftl hi 8))
  | _, _ => None
  end.

(** ** JavaScript numbers (binary64) *)

(** A small non-negative integer as a JS number. *)
Definition num (n : nat) : float := PrimFloat.of_uint63 (Uint63.of_Z (Z.of_nat n)).

(** The integer and binary exponent of a finite double: [x = v * 2^e]. *)
Definition float_parts (x : float) : option (Z * Z) :=
  match Prim2SF x with
  | S754_zero _ => Some (0%Z, 0%Z)
  | S754_finite sgn m e => Some (if sgn then Zneg m else Zpos m, e)
  | _ => None
  end.

(** [Math.round]: the nearest integer, ties towards +infinity, computed
    exactly on the value of the double. The non-finite results (NaN and
    the infinities) do not fit [Z] and are given as 0; [runOta] only
    rounds finite values. *)
Definition Math_round (x : float) : Z :=
  match float_parts x with
  | Some (v, e) =>
      if (0 <=? e)%Z then (v * 2 ^ e)%Z
      else ((2 * v + 2 ^ (- e)) / 2 ^ (- e + 1))%Z
  | None => 0%Z
  end.

(** [Math.ceil], with the same convention. *)
Definition Math_ceil (x : float) : Z :=
  match float_parts x with
  | Some (v, e) =>
      if (0 <=? e)%Z then (v * 2 ^ e)%Z else (- ((- v) / 2 ^ (- e)))%Z
  | None => 0%Z
  end.

(** [Math.ceil(a / b)] evaluated in binary64. *)
Definition Math_ceil_div_double (a b : nat) : Z :=
  Math_ceil (PrimFloat.div (num a) (num b)).

(** The integers [start, start + 1, ...], [len] of them. *)
Fixpoint zseq (start : Z) (len : nat) : list Z :=
  match len with
  | 0 => []
  | S l => start :: zseq (start + 1) l
  end.

(** ** Framing: sectors and packets (lines 16, 133-147) *)

Definition SECTOR_SIZE : nat := 4096.

(** [Math.ceil(a / b)] for non-negative integers [a] and [b > 0], in
    integer arithmetic. For [pkts] the dividend is at most 4096 and the
    divisor 20 or 244: [Math_ceil_div_double_agrees] checks all of these
    against the binary64 quotient. For [totalS] the divisor is 4096, a
    power of two, so the double quotient of a length below 2^53 is exact
    and its ceiling is the integer ceiling. *)
Definition Math_ceil_div (a b : nat) : nat :=
  if a mod b =? 0 then a / b else S (a / b).

(** [const pSize = fastMode ? 244 : 20;] *)
Definition pSize (fastMode : bool) : nat := if fastMode then 244 else 20.

(** [const totalS = Math.ceil(raw.length / SECTOR_SIZE);] *)
Definition totalS (raw : list Z) : nat := Math_ceil_div (length raw) SECTOR_SIZE.

(** [const sData = raw.slice(s * SECTOR_SIZE, (s + 1) * SECTOR_SIZE);] *)
Definition sData (raw : list Z) (s : nat) : list Z :=
  slice raw (s * SECTOR_SIZE) ((s + 1) * SECTOR_SIZE).

(** [const pkts = Math.ceil(sData.length / pSize);] *)
Definition pkts (sd : list Z) (psz : nat) : nat := Math_ceil_div (length sd) psz.

(** [const chunk = sData.slice(p * pSize, (p + 1) * pSize);] *)
Definition chunk (sd : list Z) (psz p : nat) : list Z :=
  slice sd (p * psz) ((p + 1) * psz).

(** The value handed to [pdv.setUint8(2, ...)]: [p === pkts - 1 ? 0xFF : p]. *)
Definition seq_arg (npk p : nat) : Z :=
  if p =? npk - 1 then 255%Z else Z.of_nat p.

(** The bytes of [pBuf] for packet [p] of sector [s] (lines 142-147). *)
Definition pBuf (s : nat) (sd : list Z) (psz p : nat) : list Z :=
  u16le (Z.of_nat s) ++ [u8 (seq_arg (pkts sd psz) p)] ++ chunk sd psz p.

(** The sectors the outer loop visits, in order. *)
Definition sectors_of (raw : list Z) : list (list Z) :=
  map (sData raw) (seq 0 (totalS raw)).

(** The packets the inner loop writes for one sector, in order. *)
Definition packets_of (s : nat) (sd : list Z) (psz : nat) : list (list Z) :=
  map (pBuf s sd psz) (seq 0 (pkts sd psz)).

(** Reading a packet back, as the receiver does. *)
Definition pkt_seq (b : list Z) : option Z := b !! 2.
Definition pkt_payload (b : list Z) : list Z := drop 3 b.
Definition SENTINEL : Z := 255.

(** [Math.round(((s + 1) / totalS) * 100)] (line 152), in binary64. *)
Definition progress_of (s total : nat) : Z :=
  Math_round (PrimFloat.mul (PrimFloat.div (num (s + 1)) (num total)) (num 100)).

(** The spec's formula read over the rationals, ties rounded up. *)
Definition progress_exact (completed total : nat) : Z :=
  ((200 * Z.of_nat completed + Z.of_nat total) / (2 * Z.of_nat total))%Z.

(** ** The session: UI state, registry, timers and the [runOta] coroutine *)

Inductive OtaStatus := ota_idle | ota_running | ota_success | ota_failed.
Inductive ConnStatus := conn_idle | conn_busy | conn_ready.

(** Where [runOta] is suspended: one constructor per [await]. A promise
    made by [wait] is named by the handle of its timeout timer. *)
Inductive Pc :=
| PcNone                              (* no run in flight *)
| PcStartWrite                        (* line 130 *)
| PcWaitCmd1 (w : nat)                (* line 131 *)
| PcReadFile                          (* line 133 *)
| PcDataWrite (s p : nat)             (* line 148 *)
| PcSleep (s p : nat) (t : nat)       (* line 149 *)
| PcWaitSector (s : nat) (w : nat)    (* line 151 *)
| PcFinishWrite                       (* line 155 *)
| PcWaitCmd2 (w : nat).               (* line 156 *)

(** What the run does that can be seen from outside, newest first. *)
Inductive Obs :=
| CmdWrite (bytes : list Z)           (* cmdChar.writeValueWithResponse *)
| DataWrite (s p : nat) (bytes : list Z) (* dataChar.writeValueWithoutResponse *)
| Acked (key : string) (status : Z)   (* the awaited wait(key) resolved *)
| SetProgress (n : Z)
| SetOtaStatus (v : OtaStatus).

Record State := mkState {
  ackResolvers : gmap string nat;     (* key -> resolver, named by its timer *)
  timers : gmap nat Z;                (* setTimeout handle -> due time, ms *)
  next_timer : nat;                   (* the next handle setTimeout returns *)
  now : Z;                            (* the clock, ms *)
  pc : Pc;
  ble : bool;                         (* ble.current !== null *)
  connStatus : ConnStatus;
  otaStatus : OtaStatus;
  progress : Z;
  logs : list (string * string);
  trace : list Obs
}.

Definition set_pc (v : Pc) (st : State) : State :=
  mkState (ackResolvers st) (timers st) (next_timer st) (now st) v (ble st)
          (connStatus st) (otaStatus st) (progress st) (logs st) (trace st).

Definition set_timers (v : gmap nat Z) (st : State) : State :=
  mkState (ackResolvers st) v (next_timer st) (now st) (pc st) (ble st)
          (connStatus st) (otaStatus st) (progress st) (logs st) (trace st).

Definition set_now (v : Z) (st : State) : State :=
  mkState (ackResolvers st) (timers st) (next_timer st) v (pc st) (ble st)
          (connStatus st) (otaStatus st) (progress st) (logs st) (trace st).

Definition setConnStatus (v : ConnStatus) (st : State) : State :=
  mkState (ackResolvers st) (timers st) (next_timer st) (now st) (pc st) (ble st)
          v (otaStatus st) (progress st) (logs st) (trace st).

Definition setOtaStatus (v : OtaStatus) (st : State) : State :=
  mkState (ackResolvers st) (timers st) (next_timer st) (now st) (pc st) (ble st)
          (connStatus st) v (progress st) (logs st) (SetOtaStatus v :: trace st).

Definition setProgress (v : Z) (st : State) : State :=
  mkState (ackResolvers st) (timers st) (next_timer st) (now st) (pc st) (ble st)
          (connStatus st) (otaStatus st) v (logs st) (SetProgress v :: trace st).

(** [addLog]: [setLogs(prev => [{ msg, type }, ...prev.slice(0, 30)])]. *)
Definition addLog (msg type : string) (st : State) : State :=
  mkState (ackResolvers st) (timers st) (next_timer st) (now st) (pc st) (ble st)
          (connStatus st) (otaStatus st) (progress st)
          ((msg, type) :: slice (logs st) 0 30) (trace st).

Definition observe (o : Obs) (st : State) : State :=
  mkState (ackResolvers st) (timers st) (next_timer st) (now st) (pc st) (ble st)
          (connStatus st) (otaStatus st) (progress st) (logs st) (o :: trace st).

(** [setTimeout(_, ms)]: a fresh handle, due [ms] from now. *)
Definition setTimeout (ms : Z) (st : State) : nat * State :=
  let t := next_timer st in
  (t, mkState (ackResolvers st) (<[t := (now st + ms)%Z]> (timers st)) (S t) (now st)
              (pc st) (ble st) (connStatus st) (otaStatus st) (progress st)
              (logs st) (trace st)).

Definition clearTimeout (t : nat) (st : State) : State :=
  set_timers (delete t (timers st)) st.

Definition ACK_TIMEOUT_MS : Z := 12000.

(** [wait] (lines 120-123): arm the timeout, then store the resolver under
    [key] by plain assignment. The result names the new promise. *)
Definition wait (key : string) (st : State) : nat * State :=
  let '(t, st1) := setTimeout ACK_TIMEOUT_MS st in
  (t, mkState (<[key := t]> (ackResolvers st1)) (timers st1) (next_timer st1)
              (now st1) (pc st1) (ble st1) (connStatus st1) (otaStatus st1)
              (progress st1) (logs st1) (trace st1)).

(** The keys [`cmd_${n}`] and [`sector_${n}`]. *)
Definition cmd_key (n : Z) : string := "cmd_" +:+ pretty n.
Definition sector_key (n : Z) : string := "sector_" +:+ pretty n.

(** The [catch] block (lines 159-163). *)
Definition catch_error (msg : string) (st : State) : State :=
  set_pc PcNone (addLog ("Error: " +:+ msg) "error" (setOtaStatus ota_failed st)).

Section Run.

(** The file picked and the throughput mode, as captured by [runOta]. *)
Variable raw : list Z.
Variable fastMode : bool.

(** Lines 126-130: reset the UI, build the start command and write it. *)
Definition start (st : State) : State :=
  set_pc PcStartWrite
    (observe (CmdWrite (u16le 1 ++ u32le (Z.of_nat (length raw))))
       (setProgress 0 (setOtaStatus ota_running st))).

(** Lines 155: the finish command. *)
Definition finish (st : State) : State :=
  set_pc PcFinishWrite (observe (CmdWrite [2%Z; 0%Z]) st).

(** The head of the inner loop at [p] (lines 141-148, 151). *)
Definition packet_loop (s p : nat) (st : State) : State :=
  if p <? pkts (sData raw s) (pSize fastMode) then
    set_pc (PcDataWrite s p)
      (observe (DataWrite s p (pBuf s (sData raw s) (pSize fastMode) p)) st)
  else
    let '(w, st1) := wait (sector_key (Z.of_nat s)) st in
    set_pc (PcWaitSector s w) st1.

(** The head of the outer loop at [s] (lines 137-139). *)
Definition sector_loop (s : nat) (st : State) : State :=
  if s <? totalS raw then packet_loop s 0 st else finish st.

(** The awaited GATT write resolves. *)
Definition write_done (st : State) : State :=
  match pc st with
  | PcStartWrite =>
      let '(w, st1) := wait (cmd_key 1) st in set_pc (PcWaitCmd1 w) st1
  | PcDataWrite s p =>
      if fastMode then packet_loop s (S p) st
      else let '(t, st1) := setTimeout 12%Z st in set_pc (PcSleep s p t) st1
  | PcFinishWrite =>
      let '(w, st1) := wait (cmd_key 2) st in set_pc (PcWaitCmd2 w) st1
  | _ => st
  end.

(** The awaited write or file read rejects: control enters [catch]. *)
Definition io_failed (msg : string) (st : State) : State :=
  match pc st with
  | PcStartWrite | PcReadFile | PcDataWrite _ _ | PcFinishWrite => catch_error msg st
  | _ => st
  end.

(** [await file.arrayBuffer()] resolves (line 133). *)
Definition file_loaded (st : State) : State :=
  match pc st with
  | PcReadFile => sector_loop 0 st
  | _ => st
  end.

(** The awaited [wait] promise resolves with [status]
    (lines 131, 151-152, 156-158). *)
Definition resolved (status : Z) (st : State) : State :=
  match pc st with
  | PcWaitCmd1 _ =>
      if (status =? 0)%Z then set_pc PcReadFile st else catch_error "Rejected" st
  | PcWaitSector s _ =>
      if (status =? 0)%Z
      then sector_loop (S s) (setProgress (progress_of s (totalS raw)) st)
      else catch_error "Sector Error" st
  | PcWaitCmd2 _ => set_pc PcNone (setOtaStatus ota_success st)
  | _ => st
  end.

(** The promise of [wait] the coroutine is suspended on, if any. *)
Definition waiting_on (p : Pc) : option nat :=
  match p with
  | PcWaitCmd1 w | PcWaitSector _ w | PcWaitCmd2 w => Some w
  | _ => None
  end.

(** The resolver stored by [wait]: [(s) => { clearTimeout(t); res(s); }].
    [res] only has an effect while the promise is pending, that is while
    the coroutine is still suspended on it. *)
Definition call_resolver (key : string) (t : nat) (status : Z) (st : State) : State :=
  let st1 := clearTimeout t st in
  if decide (waiting_on (pc st) = Some t)
  then resolved status (observe (Acked key status) st1)
  else st1.

Inductive Prefix := prefix_cmd | prefix_sector.

(** [handleAck] (lines 59-75). A read past the end of the value throws in
    the listener and leaves the state as it was. *)
Definition handleAck (prefix : Prefix) (v : list Z) (st : State) : State :=
  match prefix with
  | prefix_cmd =>
      match getUint16 v 0, getUint16 v 2, getUint16 v 4 with
      | Some ackType, Some originalCmd, Some status =>
          if (ackType =? 3)%Z then
            match ackResolvers st !! cmd_key originalCmd with
            | Some t => call_resolver (cmd_key originalCmd) t status st
            | None => st
            end
          else st
      | _, _, _ => st
      end
  | prefix_sector =>
      match getUint16 v 0, getUint16 v 2 with
      | Some sector, Some status =>
          match ackResolvers st !! sector_key sector with
          | Some t => call_resolver (sector_key sector) t status st
          | None => st
          end
      | _, _ => st
      end
  end.

(** One millisecond passes: the timers that are due fire and are gone.
    A [wait] timer rejects its promise with 'ACK Timeout'; the 12 ms timer
    of line 149 resumes the inner loop. Only the timer of the promise the
    coroutine is suspended on has an effect. *)
Definition tick (st : State) : State :=
  let n := (now st + 1)%Z in
  let due t := match timers st !! t with Some d => (d <=? n)%Z | None => false end in
  let st1 := set_now n (set_timers (filter (fun kv => (n < kv.2)%Z) (timers st)) st) in
  match pc st with
  | PcWaitCmd1 w | PcWaitSector _ w | PcWaitCmd2 w =>
      if due w then catch_error "ACK Timeout" st1 else st1
  | PcSleep s p t =>
      if due t then packet_loop s (S p) st1 else st1
  | _ => st1
  end.

(** The [gattserverdisconnected] listener (lines 97-101). *)
Definition disconnected (st : State) : State :=
  setOtaStatus ota_idle (setConnStatus conn_idle st).

Inductive Event :=
| EvWriteOk                                 (* the GATT write in flight resolves *)
| EvIoError (msg : string)                  (* the write or file read rejects *)
| EvFileLoaded                              (* file.arrayBuffer() resolves *)
| EvNotify (prefix : Prefix) (v : list Z)   (* characteristicvaluechanged *)
| EvTick                                    (* one millisecond elapses *)
| EvDisconnect.                             (* gattserverdisconnected *)

Definition step (st : State) (ev : Event) : State :=
  match ev with
  | EvWriteOk => write_done st
  | EvIoError msg => io_failed msg st
  | EvFileLoaded => file_loaded st
  | EvNotify prefix v => handleAck prefix v st
  | EvTick => tick st
  | EvDisconnect => disconnected st
  end.

Definition run (st : State) (evs : list Event) : State := foldl step st evs.

End Run.

(** [runOta] up to its first [await] (lines 114-130); [file] is the React
    state of the file input. *)
Definition runOta (file : option (list Z)) (fastMode : bool) (st : State) : State :=
  match file with
  | None => st
  | Some raw => if ble st then start raw st else st
  end.

(** The page after [connect] has succeeded. *)
Definition init : State :=
  mkState ∅ ∅ 0 0%Z PcNone true conn_ready ota_idle 0 [] [].

(** ** Notifications and schedules of a device that accepts everything *)

(** [[ackType:u16=3][originalOpcode:u16][status:u16]] *)
Definition cmd_ack (opcode status : Z) : Event :=
  EvNotify prefix_cmd (u16le 3 ++ u16le opcode ++ u16le status).

(** [[sectorIndex:u16][status:u16]] *)
Definition sector_ack (s status : Z) : Event :=
  EvNotify prefix_sector (u16le s ++ u16le status).

(** One packet goes out; in safe mode the 12 ms pause follows. *)
Definition packet_events (fastMode : bool) : list Event :=
  EvWriteOk :: (if fastMode then [] else repeat EvTick 12).

Definition sector_events (raw : list Z) (fastMode : bool) (s : nat) : list Event :=
  concat (repeat (packet_events fastMode) (pkts (sData raw s) (pSize fastMode)))
  ++ [sector_ack (Z.of_nat s) 0].

(** The whole run against a device that accepts every step; the finish
    command is answered with [finish_status]. *)
Definition accepting (raw : list Z) (fastMode : bool) (finish_status : Z) : list Event :=
  [EvWriteOk; cmd_ack 1 0; EvFileLoaded]
  ++ flat_map (sector_events raw fastMode) (seq 0 (totalS raw))
  ++ [EvWriteOk; cmd_ack 2 finish_status].

(** ** Reading the trace *)

(** The progress values reported, oldest first. *)
Definition progress_events (tr : list Obs) : list Z :=
  omap (fun o => match o with SetProgress n => Some n | _ => None end) (rev tr).

(** The progress values set right after a wait resolved, oldest first:
    what is reported on acknowledgements, without the reset of line 118. *)
Fixpoint progress_on_ack (tr : list Obs) : list Z :=
  match tr with
  | [] => []
  | o :: older =>
      match o, older with
      | SetProgress n, Acked _ _ :: _ => progress_on_ack older ++ [n]
      | _, _ => progress_on_ack older
      end
  end.

(** The data packets written, oldest first. *)
Definition data_writes (tr : list Obs) : list (nat * nat * list Z) :=
  omap (fun o => match o with DataWrite s p b => Some (s, p, b) | _ => None end) (rev tr).

(** What the inner loop writes to the data channel for sector [s]. *)
Definition sector_writes (raw : list Z) (fastMode : bool) (s : nat) : list (nat * nat * list Z) :=
  map (fun p => (s, p, pBuf s (sData raw s) (pSize fastMode) p))
      (seq 0 (pkts (sData raw s) (pSize fastMode))).

(** Everything a complete transfer writes to the data channel, in order. *)
Definition all_writes (raw : list Z) (fastMode : bool) : list (nat * nat * list Z) :=
  flat_map (sector_writes raw fastMode) (seq 0 (totalS raw)).

(** The writes up to, and without, packet [p] of sector [s]. *)
Definition written (raw : list Z) (fastMode : bool) (s p : nat) : list (nat * nat * list Z) :=
  flat_map (sector_writes raw fastMode) (seq 0 s) ++ take p (sector_writes raw fastMode s).

(** The sectors below [s] have all been acknowledged with status 0. *)
Definition acks_upto (s : nat) (tr : list Obs) : Prop :=
  forall i, i < s -> In (Acked (sector_key (Z.of_nat i)) 0%Z) tr.

(** Every packet of sector [s + 1] in the trace was written after the
    acknowledgement of sector [s] had been received with status 0. *)
Fixpoint acked_before_next (tr : list Obs) : Prop :=
  match tr with
  | [] => True
  | o :: older =>
      match o with
      | DataWrite (S i) _ _ => In (Acked (sector_key (Z.of_nat i)) 0%Z) older
      | _ => True
      end /\ acked_before_next older
  end.

(** The resolver [handleAck] calls for a notification, if any. *)
Definition resolver_hit (prefix : Prefix) (v : list Z) (reg : gmap string nat) : option nat :=
  match prefix with
  | prefix_cmd =>
      match getUint16 v 0, getUint16 v 2, getUint16 v 4 with
      | Some ackType, Some originalCmd, Some _ =>
          if (ackType =? 3)%Z then reg !! cmd_key originalCmd else None
      | _, _, _ => None
      end
  | prefix_sector =>
      match getUint16 v 0, getUint16 v 2 with
      | Some sector, Some _ => reg !! sector_key sector
      | _, _ => None
      end
  end.

(** The event is a notification that calls the resolver of promise [w]. *)
Definition reaches (reg : gmap string nat) (w : nat) (ev : Event) : Prop :=
  match ev with
  | EvNotify prefix v => resolver_hit prefix v reg = Some w
  | _ => False
  end.

(** The milliseconds that pass during a list of events. *)
Fixpoint ticks (evs : list Event) : Z :=
  match evs with
  | [] => 0
  | EvTick :: evs' => 1 + ticks evs'
  | _ :: evs' => ticks evs'
  end.

(** The clock moves on and the timers that are due are dropped. *)
Definition pass_ms (st : State) : State :=
  set_now (now st + 1)%Z
    (set_timers (filter (fun kv => (now st + 1 < kv.2)%Z) (timers st)) st).

(** What holds of a run suspended on promise [w] whose timer is due at [d]. *)
Definition suspended_on (w : nat) (d : Z) (reg : gmap string nat) (p : Pc) (st : State) : Prop :=
  pc st = p /\ waiting_on p = Some w /\ timers st !! w = Some d /\ ackResolvers st = reg.

(** [st1] shows what [st] shows: they differ at most in the registry,
    the timers, the clock and where the run is suspended. *)
Definition shows_as (st1 st : State) : Prop :=
  trace st1 = trace st /\ otaStatus st1 = otaStatus st /\
  progress st1 = progress st /\ logs st1 = logs st.

(** ** The invariant of a run *)

(** Every stored resolver names a timer handle that has been issued. *)
Definition reg_fresh (st : State) : Prop :=
  forall k t, ackResolvers st !! k = Some t -> t < next_timer st.

(** What the trace holds at each point of suspension. *)
Definition pc_inv (raw : list Z) (fastMode : bool) (st : State) : Prop :=
  match pc st with
  | PcNone => data_writes (trace st) `prefix_of` all_writes raw fastMode
  | PcStartWrite | PcWaitCmd1 _ | PcReadFile => data_writes (trace st) = []
  | PcDataWrite s p | PcSleep s p _ =>
      s < totalS raw /\ p < pkts (sData raw s) (pSize fastMode) /\
      data_writes (trace st) = written raw fastMode s (S p) /\
      acks_upto s (trace st)
  | PcWaitSector s w =>
      s < totalS raw /\
      data_writes (trace st) = written raw fastMode (S s) 0 /\
      acks_upto s (trace st) /\
      (forall k, ackResolvers st !! k = Some w -> k = sector_key (Z.of_nat s))
  | PcFinishWrite | PcWaitCmd2 _ => data_writes (trace st) = all_writes raw fastMode
  end.

Definition Inv (raw : list Z) (fastMode : bool) (st : State) : Prop :=
  reg_fresh st /\ acked_before_next (trace st) /\ pc_inv raw fastMode st.

(** * Facts *)

(** ** Slices and little-endian fields *)

Lemma length_slice {A} (l : list A) (a b : nat) :
  length (slice l a b) = Nat.min (b - a) (length l - a).
Proof. unfold slice. by rewrite length_take, length_drop. Qed.

(** Consecutive slices of width [c] put end to end are a prefix. *)
Lemma slice_chunks {A} (l : list A) (c n : nat) :
  concat (map (fun i => slice l (i * c) ((i + 1) * c)) (seq 0 n)) = take (n * c) l.
Proof.
  induction n as [|n IH]; [done|].
  rewrite seq_S, map_app, concat_app, IH. simpl.
  rewrite app_nil_r. unfold slice.
  replace ((n + 1) * c - n * c) with c by lia.
  replace (c + n * c) with (n * c + c) by lia.
  by rewrite take_take_drop.
Qed.

Lemma u8_small (v : Z) : (0 <= v < 256)%Z -> u8 v = v.
Proof.
  intros Hv. unfold u8. change 255%Z with (Z.ones 8).
  rewrite Z.land_ones by lia. apply Z.mod_small. lia.
Qed.

Lemma lor_shiftl_bytes (lo hi : Z) :
  (0 <= lo < 256)%Z -> Z.lor lo (Z.shiftl hi 8) = (lo + 256 * hi)%Z.
Proof.
  intros Hlo. rewrite Z.shiftl_mul_pow2 by lia.
  rewrite <- Z.add_nocarry_lor; [lia|].
  apply Z.bits_inj'. intros n Hn. rewrite Z.land_spec, Z.bits_0.
  destruct (Z.ltb_spec n 8).
  - rewrite Z.mul_pow2_bits_low by lia. apply andb_false_r.
  - rewrite <- (Z.mod_small lo (2 ^ 8)) by lia.
    rewrite Z.mod_pow2_bits_high by lia. done.
Qed.

Lemma getUint16_u16le (v : Z) (rest : list Z) :
  (0 <= v < 65536)%Z -> getUint16 (u16le v ++ rest) 0 = Some v.
Proof.
  intros Hv. unfold getUint16, u16le. simpl. f_equal.
  change 255%Z with (Z.ones 8). rewrite !Z.land_ones by lia.
  rewrite Z.shiftr_div_pow2 by lia.
  rewrite lor_shiftl_bytes by (apply Z.mod_pos_bound; lia).
  rewrite (Z.mod_small (v / 2 ^ 8)) by (split; [apply Z.div_pos|apply Z.div_lt_upper_bound]; lia).
  rewrite (Z.div_mod v (2 ^ 8)) at 3 by lia. lia.
Qed.

(** ** [Math_ceil_div] is the ceiling of the quotient *)

Section CeilDiv.
Variables (a b : nat).
Hypothesis Hb : 0 < b.

Lemma Math_ceil_div_cases :
  a = Math_ceil_div a b * b \/
  (Math_ceil_div a b = S (a / b) /\ a / b * b < a < S (a / b) * b).
Proof.
  unfold Math_ceil_div.
  pose proof (Nat.div_mod_eq a b). pose proof (Nat.mod_upper_bound a b).
  destruct (Nat.eqb_spec (a mod b) 0); [left|right]; nia.
Qed.

(** The Galois connection that defines the ceiling. *)
Lemma Math_ceil_div_le_iff (n : nat) : Math_ceil_div a b <= n <-> a <= n * b.
Proof. destruct Math_ceil_div_cases as [H|[H1 H2]]; [|rewrite H1]; nia. Qed.

Lemma Math_ceil_div_upper : a <= Math_ceil_div a b * b.
Proof. by apply Math_ceil_div_le_iff. Qed.

Lemma Math_ceil_div_lower (n : nat) : n < Math_ceil_div a b -> n * b < a.
Proof. pose proof (Math_ceil_div_le_iff n). lia. Qed.

Lemma Math_ceil_div_pos : 0 < a -> 0 < Math_ceil_div a b.
Proof. pose proof (Math_ceil_div_le_iff 0). lia. Qed.

End CeilDiv.

Lemma Math_ceil_div_Z (a b : nat) :
  0 < b -> Z.of_nat (Math_ceil_div a b) = ((Z.of_nat a + Z.of_nat b - 1) / Z.of_nat b)%Z.
Proof.
  intros Hb. apply Z.div_unique with (r := ((Z.of_nat a + Z.of_nat b - 1) - Z.of_nat b * Z.of_nat (Math_ceil_div a b))%Z); [|lia].
  left. destruct (Math_ceil_div_cases a b Hb) as [H|[H1 H2]]; [|rewrite H1]; nia.
Qed.

Lemma elem_of_zseq (z : Z) (len : nat) (start : Z) :
  (start <= z < start + Z.of_nat len)%Z -> In z (zseq start len).
Proof.
  revert start. induction len as [|len IH]; intros start Hz; [lia|].
  simpl. destruct (decide (start = z)); [by left|right; apply IH; lia].
Qed.

(** The integer ceiling agrees with [Math.ceil] of the binary64 quotient
    on every length a sector can have, for the three divisors in use. *)
Lemma Math_ceil_div_double_agrees (a b : nat) :
  a <= SECTOR_SIZE -> In b [20; 244; SECTOR_SIZE] ->
  Math_ceil_div_double a b = Z.of_nat (Math_ceil_div a b).
Proof.
  intros Ha Hb.
  assert (Hchk : forallb (fun b => forallb (fun a =>
            (Math_ceil (PrimFloat.div (PrimFloat.of_uint63 (Uint63.of_Z a))
                                      (PrimFloat.of_uint63 (Uint63.of_Z b)))
             =? (a + b - 1) / b)%Z) (zseq 0 4097)) [20; 244; 4096]%Z = true)
    by (vm_compute; reflexivity).
  rewrite forallb_forall in Hchk.
  assert (Hb' : In (Z.of_nat b) [20; 244; 4096]%Z /\ 0 < b).
  { unfold SECTOR_SIZE in Hb. simpl in Hb. destruct Hb as [<-|[<-|[<-|[]]]]; simpl; split; auto; lia. }
  destruct Hb' as [Hb' Hpos].
  specialize (Hchk _ Hb'). rewrite forallb_forall in Hchk.
  specialize (Hchk (Z.of_nat a)). rewrite Math_ceil_div_Z by done.
  apply Z.eqb_eq, Hchk, elem_of_zseq. unfold SECTOR_SIZE in Ha. lia.
Qed.

(** ** Sectors *)

Lemma pSize_pos (fastMode : bool) : 0 < pSize fastMode.
Proof. unfold pSize. destruct fastMode; lia. Qed.

Lemma length_sData (raw : list Z) (s : nat) :
  length (sData raw s) = Nat.min SECTOR_SIZE (length raw - s * SECTOR_SIZE).
Proof. unfold sData. rewrite length_slice. f_equal. lia. Qed.

Lemma length_sData_le (raw : list Z) (s : nat) : length (sData raw s) <= SECTOR_SIZE.
Proof. rewrite length_sData. lia. Qed.

Lemma length_sData_pos (raw : list Z) (s : nat) :
  s < totalS raw -> 0 < length (sData raw s).
Proof.
  intros Hs. rewrite length_sData.
  apply Math_ceil_div_lower in Hs; unfold SECTOR_SIZE in *; lia.
Qed.

Lemma length_sData_full (raw : list Z) (s : nat) :
  S s < totalS raw -> length (sData raw s) = SECTOR_SIZE.
Proof.
  intros Hs. rewrite length_sData.
  apply Math_ceil_div_lower in Hs; unfold SECTOR_SIZE in *; lia.
Qed.

Lemma concat_sectors_of (raw : list Z) : concat (sectors_of raw) = raw.
Proof.
  unfold sectors_of, sData. rewrite slice_chunks.
  apply take_ge, Math_ceil_div_upper. unfold SECTOR_SIZE. lia.
Qed.

(** C3. For every image the sectors are [ceil(length / 4096)] in number
    (the least [n] with [length <= n * 4096]), put end to end they are the
    image, so their lengths sum to its length; a zero-length image has no
    sector; every sector has between 1 and 4096 bytes and all but the last
    have exactly 4096. *)
Theorem sectors_of_partition (raw : list Z) :
  length (sectors_of raw) = totalS raw /\
  (forall n, totalS raw <= n <-> length raw <= n * SECTOR_SIZE) /\
  concat (sectors_of raw) = raw /\
  sum_list (map length (sectors_of raw)) = length raw /\
  sectors_of [] = [] /\
  Forall (fun sd => 0 < length sd <= SECTOR_SIZE) (sectors_of raw) /\
  Forall (fun sd => length sd = SECTOR_SIZE) (take (totalS raw - 1) (sectors_of raw)).
Proof.
  split; [unfold sectors_of; by rewrite length_map, length_seq|].
  split; [intros n; apply Math_ceil_div_le_iff; unfold SECTOR_SIZE; lia|].
  split; [apply concat_sectors_of|].
  split.
  { rewrite <- (concat_sectors_of raw) at 2. by rewrite length_concat. }
  split; [reflexivity|].
  unfold sectors_of. split.
  - apply Forall_forall. intros sd Hin.
    apply list_elem_of_In, in_map_iff in Hin as (s & <- & Hs).
    apply in_seq in Hs. split; [apply length_sData_pos; lia|apply length_sData_le].
  - rewrite firstn_map. apply Forall_forall. intros sd Hin.
    apply list_elem_of_In, in_map_iff in Hin as (s & <- & Hs).
    rewrite take_seq in Hs. apply in_seq in Hs. apply length_sData_full. lia.
Qed.

(** ** Packets *)

Lemma filter_none {A} (P : A -> Prop) `{forall x, Decision (P x)} (l : list A) :
  Forall (fun x => ~ P x) l -> filter P l = [].
Proof.
  induction 1 as [|x l Hx _ IH]; [done|].
  rewrite filter_cons. by destruct (decide (P x)).
Qed.

Lemma pkt_payload_pBuf (s : nat) (sd : list Z) (psz p : nat) :
  pkt_payload (pBuf s sd psz p) = chunk sd psz p.
Proof. reflexivity. Qed.

Lemma pkt_seq_pBuf (s : nat) (sd : list Z) (psz p : nat) :
  pkt_seq (pBuf s sd psz p) = Some (u8 (seq_arg (pkts sd psz) p)).
Proof. reflexivity. Qed.

Lemma concat_chunks (sd : list Z) (psz : nat) :
  0 < psz -> concat (map (chunk sd psz) (seq 0 (pkts sd psz))) = sd.
Proof.
  intros Hp. unfold chunk. rewrite slice_chunks.
  by apply take_ge, Math_ceil_div_upper.
Qed.

(** A sector never needs more than 205 packets, in either mode. *)
Lemma pkts_sData_le (raw : list Z) (fastMode : bool) (s : nat) :
  pkts (sData raw s) (pSize fastMode) <= 205.
Proof.
  apply Math_ceil_div_le_iff; [apply pSize_pos|].
  pose proof (length_sData_le raw s). unfold SECTOR_SIZE, pSize in *.
  destruct fastMode; lia.
Qed.

Lemma pkts_sData_pos (raw : list Z) (fastMode : bool) (s : nat) :
  s < totalS raw -> 0 < pkts (sData raw s) (pSize fastMode).
Proof.
  intros Hs. apply Math_ceil_div_pos; [apply pSize_pos|by apply length_sData_pos].
Qed.

Lemma seq_arg_inner (npk p : nat) : p < npk - 1 -> seq_arg npk p = Z.of_nat p.
Proof. intros Hp. unfold seq_arg. destruct (Nat.eqb_spec p (npk - 1)); [lia|done]. Qed.

Lemma seq_arg_last (npk : nat) : seq_arg npk (npk - 1) = SENTINEL.
Proof. unfold seq_arg. by rewrite Nat.eqb_refl. Qed.

(** The sequence bytes of a sector with [npk <= 256] packets, in order. *)
Lemma seq_bytes (npk : nat) :
  0 < npk <= 256 ->
  map (fun p => u8 (seq_arg npk p)) (seq 0 npk)
  = map Z.of_nat (seq 0 (npk - 1)) ++ [SENTINEL].
Proof.
  intros Hn. destruct npk as [|n]; [lia|].
  replace (S n - 1) with n by lia.
  rewrite seq_S, map_app. simpl.
  pose proof (seq_arg_last (S n)) as Hl.
  replace (S n - 1) with n in Hl by lia. rewrite Hl. f_equal.
  apply map_ext_in. intros p Hp. apply in_seq in Hp.
  rewrite seq_arg_inner by lia. apply u8_small. lia.
Qed.

(** C2. For every sector of an image, in either mode: the payloads of its
    packets, concatenated in the order of transmission, are the sector;
    the sequence bytes are 0, 1, 2, ... on all packets but the last, which
    carries 0xFF; and a packet carries 0xFF exactly when it is the last. *)
Theorem packets_reconstruct_sector (raw : list Z) (fastMode : bool) (s : nat) :
  s < totalS raw ->
  let ps := packets_of s (sData raw s) (pSize fastMode) in
  concat (map pkt_payload ps) = sData raw s /\
  map pkt_seq ps = map (fun p => Some (Z.of_nat p)) (seq 0 (length ps - 1)) ++ [Some SENTINEL] /\
  (forall i b, ps !! i = Some b -> pkt_seq b = Some SENTINEL <-> i = length ps - 1) /\
  length (filter (fun b => pkt_seq b = Some SENTINEL) ps) = 1.
Proof.
  intros Hs ps.
  pose proof (pkts_sData_le raw fastMode s) as Hle.
  pose proof (pkts_sData_pos raw fastMode s Hs) as Hpos.
  assert (Hlen : length ps = pkts (sData raw s) (pSize fastMode)).
  { unfold ps, packets_of. by rewrite length_map, length_seq. }
  assert (Hseq : map pkt_seq ps
                 = map (fun p => Some (Z.of_nat p)) (seq 0 (length ps - 1)) ++ [Some SENTINEL]).
  { rewrite Hlen. unfold ps, packets_of. rewrite map_map.
    rewrite (map_ext _ (fun p => Some (u8 (seq_arg (pkts (sData raw s) (pSize fastMode)) p))))
      by (intros; apply pkt_seq_pBuf).
    rewrite <- (map_map (fun p => u8 (seq_arg _ p)) Some), seq_bytes by lia.
    by rewrite map_app, map_map. }
  assert (Hat : forall i b, ps !! i = Some b ->
                pkt_seq b = Some SENTINEL <-> i = length ps - 1).
  { intros i b Hb.
    assert (Hi : i < length ps) by (eapply lookup_lt_Some; eauto).
    assert (Hsb : map pkt_seq ps !! i = Some (pkt_seq b)).
    { change (map pkt_seq ps) with (pkt_seq <$> ps). by rewrite list_lookup_fmap, Hb. }
    rewrite Hseq in Hsb.
    destruct (decide (i = length ps - 1)) as [->|Hne].
    - rewrite lookup_app_r, length_map, length_seq, Nat.sub_diag in Hsb
        by (rewrite length_map, length_seq; lia).
      simpl in Hsb. split; [done|intros _; congruence].
    - rewrite lookup_app_l in Hsb by (rewrite length_map, length_seq; lia).
      change (map ?f ?l) with (f <$> l) in Hsb.
      rewrite list_lookup_fmap, lookup_seq_lt in Hsb by lia.
      simpl in Hsb. split; [|done]. intros Heq. rewrite Heq in Hsb.
      unfold SENTINEL in Hsb. injection Hsb as Hsb. lia. }
  split; [|split; [exact Hseq|split; [exact Hat|]]].
  - unfold ps, packets_of. rewrite map_map.
    rewrite (map_ext _ (chunk (sData raw s) (pSize fastMode)))
      by (intros; apply pkt_payload_pBuf).
    apply concat_chunks, pSize_pos.
  - rewrite <- (length_map pkt_seq (filter _ ps)).
    assert (Hf : map pkt_seq (filter (fun b => pkt_seq b = Some SENTINEL) ps)
                 = filter (fun o => o = Some SENTINEL) (map pkt_seq ps)).
    { clear. induction ps as [|b l IH]; [done|].
      simpl. rewrite !filter_cons. destruct (decide (pkt_seq b = Some SENTINEL)); simpl; by rewrite IH. }
    rewrite Hf, Hseq, filter_app. rewrite length_app.
    replace (filter _ (map _ (seq 0 (length ps - 1)))) with (@nil (option Z)).
    + reflexivity.
    + symmetry. apply filter_none, Forall_forall. intros o Ho.
      apply list_elem_of_In, in_map_iff in Ho as (p & <- & Hp). apply in_seq in Hp.
      unfold SENTINEL. intros Heq. injection Heq as Heq. lia.
Qed.

(** The theorem at a two-sector image, safe mode, second sector. *)
Lemma packets_reconstruct_sector_witness :
  let raw := repeat 7%Z 5000 in
  let ps := packets_of 1 (sData raw 1) (pSize false) in
  concat (map pkt_payload ps) = sData raw 1 /\
  map pkt_seq ps = map (fun p => Some (Z.of_nat p)) (seq 0 (length ps - 1)) ++ [Some SENTINEL] /\
  (forall i b, ps !! i = Some b -> pkt_seq b = Some SENTINEL <-> i = length ps - 1) /\
  length (filter (fun b => pkt_seq b = Some SENTINEL) ps) = 1.
Proof.
  apply (packets_reconstruct_sector (repeat 7%Z 5000) false 1).
  vm_compute. lia.
Defined.

(** C10. In both modes every sector of every image is sent in at most
    [ceil(4096 / 20) = 205] packets; the sequence number of a packet that
    is not the last is its index, at most 204, it is stored unchanged in
    the 8-bit field and is not the sentinel; and no value handed to the
    8-bit field is outside 0..255. *)
Theorem sequence_numbers_below_sentinel (raw : list Z) (fastMode : bool) (s : nat) :
  let npk := pkts (sData raw s) (pSize fastMode) in
  Math_ceil_div SECTOR_SIZE (pSize false) = 205 /\
  npk <= 205 /\
  Forall (fun p => seq_arg npk p = Z.of_nat p /\ (seq_arg npk p <= 204)%Z /\
                   u8 (seq_arg npk p) = seq_arg npk p /\ u8 (seq_arg npk p) <> SENTINEL)
         (seq 0 (npk - 1)) /\
  Forall (fun p => (0 <= seq_arg npk p < 256)%Z) (seq 0 npk).
Proof.
  intros npk. pose proof (pkts_sData_le raw fastMode s) as Hle. fold npk in Hle.
  split; [reflexivity|]. split; [exact Hle|]. split.
  - apply Forall_forall. intros p Hp. apply list_elem_of_In, in_seq in Hp.
    rewrite seq_arg_inner by lia. rewrite u8_small by lia.
    unfold SENTINEL. repeat split; lia.
  - apply Forall_forall. intros p Hp. apply list_elem_of_In, in_seq in Hp.
    unfold seq_arg. destruct (p =? npk - 1); lia.
Qed.

(** ** Notifications *)

Lemma getUint16_drop (v : list Z) (off : nat) :
  getUint16 v off = getUint16 (drop off v) 0.
Proof.
  unfold getUint16. rewrite !lookup_drop.
  by rewrite Nat.add_0_r, Nat.add_1_r.
Qed.

Lemma cmd_ack_fields (opcode status : Z) (v : list Z) :
  (0 <= opcode < 65536)%Z -> (0 <= status < 65536)%Z ->
  v = u16le 3 ++ u16le opcode ++ u16le status ->
  getUint16 v 0 = Some 3%Z /\ getUint16 v 2 = Some opcode /\ getUint16 v 4 = Some status.
Proof.
  intros Ho Hs ->. split; [reflexivity|]. split.
  - rewrite getUint16_drop. apply (getUint16_u16le opcode (u16le status)), Ho.
  - rewrite getUint16_drop. change (u16le status) with (u16le status ++ []).
    by apply getUint16_u16le.
Qed.

Lemma sector_ack_fields (s status : Z) (v : list Z) :
  (0 <= s < 65536)%Z -> (0 <= status < 65536)%Z ->
  v = u16le s ++ u16le status ->
  getUint16 v 0 = Some s /\ getUint16 v 2 = Some status.
Proof.
  intros Ho Hs ->. split.
  - by apply getUint16_u16le.
  - rewrite getUint16_drop. change (u16le status) with (u16le status ++ []).
    by apply getUint16_u16le.
Qed.

Section Handlers.
Variable raw : list Z.
Variable fastMode : bool.

(** A command acknowledgement for [opcode] reaches the resolver stored
    under [cmd_key opcode]. *)
Lemma handleAck_cmd_ack (st : State) (opcode status : Z) (t : nat) :
  (0 <= opcode < 65536)%Z -> (0 <= status < 65536)%Z ->
  ackResolvers st !! cmd_key opcode = Some t ->
  step raw fastMode st (cmd_ack opcode status)
  = call_resolver raw fastMode (cmd_key opcode) t status st.
Proof.
  intros Ho Hs Hreg. unfold cmd_ack, step, handleAck.
  destruct (cmd_ack_fields opcode status _ Ho Hs eq_refl) as (-> & -> & ->).
  by rewrite Z.eqb_refl, Hreg.
Qed.

Lemma handleAck_sector_ack (st : State) (s status : Z) (t : nat) :
  (0 <= s < 65536)%Z -> (0 <= status < 65536)%Z ->
  ackResolvers st !! sector_key s = Some t ->
  step raw fastMode st (sector_ack s status)
  = call_resolver raw fastMode (sector_key s) t status st.
Proof.
  intros Ho Hs Hreg. unfold sector_ack, step, handleAck.
  destruct (sector_ack_fields s status _ Ho Hs eq_refl) as (-> & ->).
  by rewrite Hreg.
Qed.

Lemma call_resolver_awaited (st : State) (key : string) (t : nat) (status : Z) :
  waiting_on (pc st) = Some t ->
  call_resolver raw fastMode key t status st
  = resolved raw fastMode status (observe (Acked key status) (clearTimeout t st)).
Proof. intros Hw. unfold call_resolver. by rewrite decide_True. Qed.

Lemma call_resolver_stale (st : State) (key : string) (t : nat) (status : Z) :
  waiting_on (pc st) <> Some t ->
  call_resolver raw fastMode key t status st = clearTimeout t st.
Proof. intros Hw. unfold call_resolver. by rewrite decide_False. Qed.

(** Whatever status the acknowledgement of the finish command carries,
    the run ends with [setOtaStatus('success')] (lines 156-157). *)
Lemma finish_ack_any_status (st : State) (w : nat) (status : Z) :
  (0 <= status < 65536)%Z ->
  pc st = PcWaitCmd2 w ->
  ackResolvers st !! cmd_key 2 = Some w ->
  let st' := step raw fastMode st (cmd_ack 2 status) in
  otaStatus st' = ota_success /\ pc st' = PcNone /\ logs st' = logs st.
Proof.
  intros Hs Hpc Hreg st'. unfold st'.
  rewrite (handleAck_cmd_ack st 2 status w) by (done || lia).
  rewrite call_resolver_awaited by (by rewrite Hpc).
  unfold resolved. simpl. rewrite Hpc. by simpl.
Qed.

(** The start command is checked: status 0 goes on to read the file, any
    other status is thrown as 'Rejected' (line 131). *)
Lemma start_ack_checked (st : State) (w : nat) (status : Z) :
  (0 <= status < 65536)%Z ->
  pc st = PcWaitCmd1 w ->
  ackResolvers st !! cmd_key 1 = Some w ->
  let st' := step raw fastMode st (cmd_ack 1 status) in
  if (status =? 0)%Z then pc st' = PcReadFile /\ otaStatus st' = otaStatus st
  else pc st' = PcNone /\ otaStatus st' = ota_failed /\
       head (logs st') = Some ("Error: Rejected", "error").
Proof.
  intros Hs Hpc Hreg st'. unfold st'.
  rewrite (handleAck_cmd_ack st 1 status w) by (done || lia).
  rewrite call_resolver_awaited by (by rewrite Hpc).
  unfold resolved. simpl. rewrite Hpc. by destruct (status =? 0)%Z.
Qed.

End Handlers.

(** C1. Evaluation at the failing input: a one-byte image, fast mode, a
    device that accepts every step and answers the finish command with
    status 1. The acknowledgement is received with status 1 and the run
    ends in 'success', with no error logged. *)
Theorem finish_status_1_reported_as_success :
  let st := run [7%Z] true (runOta (Some [7%Z]) true init) (accepting [7%Z] true 1) in
  In (Acked (cmd_key 2) 1) (trace st) /\
  otaStatus st = ota_success /\ pc st = PcNone /\ logs st = [].
Proof.
  vm_compute. split; [|done].
  right. left. reflexivity.
Qed.

(** The sibling path: the same device answering the start command with
    status 1 is reported as 'failed'. *)
Lemma start_status_1_reported_as_failed :
  let st := run [7%Z] true (runOta (Some [7%Z]) true init) [EvWriteOk; cmd_ack 1 1] in
  otaStatus st = ota_failed /\ logs st = [("Error: Rejected", "error")] /\
  data_writes (trace st) = [].
Proof. vm_compute. done. Qed.

(** ** The link is lost *)

(** C4, counterexample. The link is lost while the run waits for the
    acknowledgement of the start command, of sector 0, and of the finish
    command: each time the status becomes 'idle', the run stays suspended
    on its wait, and the resolver and its timer stay registered. *)
Lemma link_lost_leaves_wait_registered :
  let negotiating := [EvWriteOk] in
  let transferring := negotiating ++ [cmd_ack 1 0; EvFileLoaded; EvWriteOk] in
  let finalizing := transferring ++ [sector_ack 0 0; EvWriteOk] in
  let lost evs := run [7%Z] true (runOta (Some [7%Z]) true init) (evs ++ [EvDisconnect]) in
  (pc (lost negotiating) = PcWaitCmd1 0 /\ otaStatus (lost negotiating) = ota_idle /\
   ackResolvers (lost negotiating) !! cmd_key 1 = Some 0 /\
   timers (lost negotiating) !! 0 = Some 12000%Z) /\
  (pc (lost transferring) = PcWaitSector 0 1 /\ otaStatus (lost transferring) = ota_idle /\
   ackResolvers (lost transferring) !! sector_key 0 = Some 1 /\
   timers (lost transferring) !! 1 = Some 12000%Z) /\
  (pc (lost finalizing) = PcWaitCmd2 2 /\ otaStatus (lost finalizing) = ota_idle /\
   ackResolvers (lost finalizing) !! cmd_key 2 = Some 2 /\
   timers (lost finalizing) !! 2 = Some 12000%Z).
Proof. vm_compute. done. Qed.

(** C4, as amended. Whatever the run is doing, the disconnect listener
    only resets [connStatus] and [otaStatus] to 'idle': the run stays
    where it is suspended, and every resolver and every timer stays
    registered; nothing is logged. *)
Theorem disconnect_only_resets_status (raw : list Z) (fastMode : bool) (st : State) :
  let st' := step raw fastMode st EvDisconnect in
  connStatus st' = conn_idle /\ otaStatus st' = ota_idle /\
  pc st' = pc st /\ ackResolvers st' = ackResolvers st /\
  timers st' = timers st /\ logs st' = logs st /\
  trace st' = SetOtaStatus ota_idle :: trace st.
Proof.
  intros st'. unfold st', step, disconnected, setOtaStatus, setConnStatus.
  simpl. repeat split.
Qed.

(** ** Waiting without an acknowledgement *)

Section Timeout.
Variable raw : list Z.
Variable fastMode : bool.

Lemma handleAck_miss (prefix : Prefix) (v : list Z) (st : State) :
  resolver_hit prefix v (ackResolvers st) = None ->
  handleAck raw fastMode prefix v st = st.
Proof.
  unfold resolver_hit, handleAck. intros H.
  destruct prefix; repeat case_match; congruence.
Qed.

Lemma handleAck_hit (prefix : Prefix) (v : list Z) (st : State) (t : nat) :
  resolver_hit prefix v (ackResolvers st) = Some t ->
  exists key status,
    ackResolvers st !! key = Some t /\
    handleAck raw fastMode prefix v st = call_resolver raw fastMode key t status st.
Proof.
  unfold resolver_hit, handleAck. intros H.
  destruct prefix; repeat case_match; try congruence; simplify_eq; eauto.
Qed.

Lemma tick_waiting_early (st : State) (w : nat) (d : Z) :
  waiting_on (pc st) = Some w -> timers st !! w = Some d ->
  (now st + 1 < d)%Z -> tick raw fastMode st = pass_ms st.
Proof.
  intros Hw Ht Hd. unfold tick.
  destruct (pc st); simplify_eq/=; rewrite Ht;
    by destruct (Z.leb_spec d (now st + 1)); [lia|].
Qed.

Lemma tick_waiting_due (st : State) (w : nat) (d : Z) :
  waiting_on (pc st) = Some w -> timers st !! w = Some d ->
  (d <= now st + 1)%Z ->
  tick raw fastMode st = catch_error "ACK Timeout" (pass_ms st).
Proof.
  intros Hw Ht Hd. unfold tick.
  destruct (pc st); simplify_eq/=; rewrite Ht;
    by destruct (Z.leb_spec d (now st + 1)); [|lia].
Qed.

Lemma step_suspended (st : State) (w : nat) (d : Z) (reg : gmap string nat) (p : Pc) (ev : Event) :
  suspended_on w d reg p st ->
  ~ reaches reg w ev ->
  (now st + ticks [ev] < d)%Z ->
  suspended_on w d reg p (step raw fastMode st ev) /\
  now (step raw fastMode st ev) = (now st + ticks [ev])%Z.
Proof.
  unfold suspended_on. intros (Hpc & Hw & Ht & Hreg) Hq Hd. subst p.
  destruct ev as [|msg| |prefix v| |]; simpl in *.
  - unfold write_done. destruct (pc st) eqn:Hpc; simplify_eq/=; (split; [done|lia]).
  - unfold io_failed. destruct (pc st) eqn:Hpc; simplify_eq/=; (split; [done|lia]).
  - unfold file_loaded. destruct (pc st) eqn:Hpc; simplify_eq/=; (split; [done|lia]).
  - rewrite <- Hreg in Hq.
    destruct (resolver_hit prefix v (ackResolvers st)) as [t|] eqn:Hhit.
    + destruct (handleAck_hit _ _ _ _ Hhit) as (key & status & _ & ->).
      rewrite call_resolver_stale by congruence.
      split; [|simpl; lia]. repeat split; try done. simpl.
      rewrite lookup_delete_ne; [done|congruence].
    + rewrite handleAck_miss by done. split; [done|lia].
  - rewrite (tick_waiting_early st w d) by (done || lia).
    split; [|simpl; lia]. repeat split; try done. simpl.
    apply map_lookup_filter_Some. split; [done|simpl; lia].
  - split; [done|lia].
Qed.

Lemma run_suspended (evs : list Event) (st : State) (w : nat) (d : Z)
      (reg : gmap string nat) (p : Pc) :
  suspended_on w d reg p st ->
  Forall (fun ev => ~ reaches reg w ev) evs ->
  (now st + ticks evs < d)%Z ->
  suspended_on w d reg p (run raw fastMode st evs) /\
  now (run raw fastMode st evs) = (now st + ticks evs)%Z.
Proof.
  revert st. induction evs as [|ev evs IH]; intros st Hs Hq Hd.
  - simpl. split; [done|lia].
  - inversion Hq as [|? ? Hev Hevs]; subst.
    assert (Hev_t : (0 <= ticks [ev])%Z /\ (0 <= ticks evs)%Z /\
                    ticks (ev :: evs) = (ticks [ev] + ticks evs)%Z).
    { assert (Hnn : forall l, (0 <= ticks l)%Z)
        by (induction l as [|[] l IHl]; simpl; lia).
      split; [apply Hnn|]. split; [apply Hnn|]. destruct ev; simpl; lia. }
    destruct Hev_t as (H0 & H1 & Hsum).
    destruct (step_suspended st w d reg p ev Hs Hev) as [Hs' Hn']; [lia|].
    destruct (IH (step raw fastMode st ev) Hs' Hevs) as [Hs'' Hn'']; [lia|].
    split; [exact Hs''|]. simpl in *. lia.
Qed.

Lemma run_snoc (st : State) (evs : list Event) (ev : Event) :
  run raw fastMode st (evs ++ [ev]) = step raw fastMode (run raw fastMode st evs) ev.
Proof. unfold run. by rewrite foldl_app. Qed.

(** C5, as amended. A waiter registered under [key] with the 12000 ms
    timer just armed, and events that bring no acknowledgement to it:
    while fewer than 12000 ticks have passed the run stays suspended on
    the wait; the tick that completes 12000 ms throws 'ACK Timeout' into
    the [catch] block. The resolver is still stored under [key] after
    the timeout, and a later [wait] on the same key stores its own
    resolver over it. *)
Theorem wait_fails_at_deadline_entry_stays (st : State) (key : string) (w : nat) :
  waiting_on (pc st) = Some w ->
  ackResolvers st !! key = Some w ->
  timers st !! w = Some (now st + ACK_TIMEOUT_MS)%Z ->
  (forall evs,
     Forall (fun ev => ~ reaches (ackResolvers st) w ev) evs ->
     (ticks evs < ACK_TIMEOUT_MS)%Z ->
     pc (run raw fastMode st evs) = pc st) /\
  (forall evs,
     Forall (fun ev => ~ reaches (ackResolvers st) w ev) evs ->
     ticks evs = (ACK_TIMEOUT_MS - 1)%Z ->
     let st' := run raw fastMode st (evs ++ [EvTick]) in
     pc st' = PcNone /\ otaStatus st' = ota_failed /\
     head (logs st') = Some ("Error: ACK Timeout", "error") /\
     now st' = (now st + ACK_TIMEOUT_MS)%Z /\
     ackResolvers st' !! key = Some w /\
     ackResolvers (wait key st').2 !! key = Some (next_timer st')).
Proof.
  intros Hw Hreg Ht.
  assert (Hs : suspended_on w (now st + ACK_TIMEOUT_MS) (ackResolvers st) (pc st) st) by done.
  split.
  - intros evs Hq Hn.
    destruct (run_suspended evs st _ _ _ _ Hs Hq) as [(Hpc & _) _]; [lia|done].
  - intros evs Hq Hn st'. unfold st'. rewrite run_snoc.
    destruct (run_suspended evs st _ _ _ _ Hs Hq) as [(Hpc & _ & Ht' & Hreg') Hnow]; [lia|].
    simpl. rewrite (tick_waiting_due _ w (now st + ACK_TIMEOUT_MS))
      by (rewrite ?Hpc; done || lia).
    simpl. rewrite Hreg', Hnow, Hn.
    repeat split; try done; try lia.
    apply lookup_insert_eq.
Qed.

End Timeout.

(** The theorem at the wait for the start command's acknowledgement. *)
Lemma wait_fails_at_deadline_entry_stays_witness :
  let st := run [7%Z] true (runOta (Some [7%Z]) true init) [EvWriteOk] in
  (forall evs,
     Forall (fun ev => ~ reaches (ackResolvers st) 0 ev) evs ->
     (ticks evs < ACK_TIMEOUT_MS)%Z ->
     pc (run [7%Z] true st evs) = pc st) /\
  (forall evs,
     Forall (fun ev => ~ reaches (ackResolvers st) 0 ev) evs ->
     ticks evs = (ACK_TIMEOUT_MS - 1)%Z ->
     let st' := run [7%Z] true st (evs ++ [EvTick]) in
     pc st' = PcNone /\ otaStatus st' = ota_failed /\
     head (logs st') = Some ("Error: ACK Timeout", "error") /\
     now st' = (now st + ACK_TIMEOUT_MS)%Z /\
     ackResolvers st' !! cmd_key 1 = Some 0 /\
     ackResolvers (wait (cmd_key 1) st').2 !! cmd_key 1 = Some (next_timer st')).
Proof.
  apply (wait_fails_at_deadline_entry_stays [7%Z] true
           (run [7%Z] true (runOta (Some [7%Z]) true init) [EvWriteOk]) (cmd_key 1) 0);
    reflexivity.
Defined.

(** C5, counterexample. No acknowledgement of the start command arrives;
    12000 ticks later the run has failed on 'ACK Timeout' and the resolver
    is still stored under 'cmd_1'. *)
Lemma timed_out_entry_still_registered :
  let st := run [7%Z] true (runOta (Some [7%Z]) true init)
                (EvWriteOk :: replicate (Z.to_nat ACK_TIMEOUT_MS) EvTick) in
  pc st = PcNone /\ otaStatus st = ota_failed /\
  logs st = [("Error: ACK Timeout", "error")] /\ now st = 12000%Z /\
  ackResolvers st !! cmd_key 1 = Some 0.
Proof. vm_compute. done. Qed.

(** ** Registering a waiter *)


Lemma wait_spec (key : string) (st : State) :
  wait key st
  = (next_timer st,
     mkState (<[key := next_timer st]> (ackResolvers st))
             (<[next_timer st := (now st + ACK_TIMEOUT_MS)%Z]> (timers st))
             (S (next_timer st)) (now st) (pc st) (ble st) (connStatus st)
             (otaStatus st) (progress st) (logs st) (trace st)).
Proof. reflexivity. Qed.


(** ** The order of the data writes *)

Section Order.
Variable raw : list Z.
Variable fastMode : bool.

#[local] Arguments sector_key : simpl never.
#[local] Arguments cmd_key : simpl never.
#[local] Arguments pBuf : simpl never.
#[local] Arguments progress_of : simpl never.

#[local] Abbreviation npk s := (pkts (sData raw s) (pSize fastMode)).
#[local] Abbreviation wrt := (written raw fastMode).
#[local] Abbreviation allw := (all_writes raw fastMode).
#[local] Abbreviation sw := (sector_writes raw fastMode).

Lemma data_writes_cons (o : Obs) (tr : list Obs) :
  data_writes (o :: tr)
  = data_writes tr ++ match o with DataWrite s p b => [(s, p, b)] | _ => [] end.
Proof.
  unfold data_writes. simpl. rewrite omap_app. by destruct o.
Qed.

Lemma progress_events_cons (o : Obs) (tr : list Obs) :
  progress_events (o :: tr)
  = progress_events tr ++ match o with SetProgress n => [n] | _ => [] end.
Proof.
  unfold progress_events. simpl. rewrite omap_app. by destruct o.
Qed.

Lemma length_sector_writes (s : nat) : length (sw s) = npk s.
Proof. unfold sector_writes. by rewrite length_map, length_seq. Qed.

Lemma written_S (s p : nat) :
  p < npk s ->
  wrt s (S p) = wrt s p ++ [(s, p, pBuf s (sData raw s) (pSize fastMode) p)].
Proof.
  intros Hp. unfold written. rewrite <- app_assoc. f_equal.
  apply take_S_r. unfold sector_writes.
  change (map ?f ?l) with (f <$> l).
  by rewrite list_lookup_fmap, lookup_seq_lt.
Qed.

Lemma written_full (s p : nat) : npk s <= p -> wrt s p = wrt (S s) 0.
Proof.
  intros Hp. unfold written.
  rewrite seq_S, flat_map_app. simpl. rewrite !app_nil_r.
  f_equal. apply take_ge. by rewrite length_sector_writes.
Qed.

Lemma written_total : wrt (totalS raw) 0 = allw.
Proof. unfold written. simpl. apply app_nil_r. Qed.

Lemma written_prefix (s p : nat) : s <= totalS raw -> wrt s 0 `prefix_of` allw.
Proof.
  intros Hs. unfold written, all_writes. simpl. rewrite app_nil_r.
  replace (totalS raw) with (s + (totalS raw - s)) by lia.
  rewrite seq_app, flat_map_app. apply prefix_app_r. done.
Qed.

Lemma written_prefix_inner (s p : nat) : s < totalS raw -> wrt s p `prefix_of` allw.
Proof.
  intros Hs. destruct (Nat.le_gt_cases (npk s) p) as [Hge|Hlt].
  - rewrite written_full by done. apply (written_prefix (S s) 0). lia.
  - etrans; [|apply (written_prefix (S s) 0); lia].
    unfold written. rewrite seq_S, flat_map_app. simpl. rewrite !app_nil_r.
    apply prefix_app, prefix_take.
Qed.

Lemma pc_inv_prefix (st : State) :
  pc_inv raw fastMode st -> data_writes (trace st) `prefix_of` allw.
Proof.
  unfold pc_inv. destruct (pc st).
  - done.
  - intros ->. apply prefix_nil.
  - intros ->. apply prefix_nil.
  - intros ->. apply prefix_nil.
  - intros (Hs & _ & -> & _). by apply written_prefix_inner.
  - intros (Hs & _ & -> & _). by apply written_prefix_inner.
  - intros (Hs & -> & _). apply (written_prefix (S s) 0). lia.
  - by intros ->.
  - by intros ->.
Qed.

Lemma reg_fresh_wait (key : string) (st : State) :
  reg_fresh st -> reg_fresh (wait key st).2.
Proof.
  intros Hf k t. rewrite wait_spec. simpl.
  rewrite lookup_insert. case_decide; [intros [= <-]; lia|].
  intros Hk. apply Hf in Hk. lia.
Qed.

Lemma acks_upto_cons (s : nat) (o : Obs) (tr : list Obs) :
  acks_upto s tr -> acks_upto s (o :: tr).
Proof. intros H i Hi. right. by apply H. Qed.

Lemma acks_upto_S (s : nat) (tr : list Obs) :
  acks_upto s tr -> In (Acked (sector_key (Z.of_nat s)) 0%Z) tr -> acks_upto (S s) tr.
Proof.
  intros H Hin i Hi. destruct (decide (i = s)) as [->|]; [done|]. apply H. lia.
Qed.

(** The head of the inner loop keeps the invariant. *)
Lemma Inv_packet_loop (st : State) (s p : nat) :
  reg_fresh st -> acked_before_next (trace st) ->
  s < totalS raw -> p <= npk s ->
  data_writes (trace st) = wrt s p -> acks_upto s (trace st) ->
  Inv raw fastMode (packet_loop raw fastMode s p st).
Proof.
  intros Hf Ha Hs Hp Hd Hk. unfold packet_loop.
  destruct (Nat.ltb_spec p (npk s)) as [Hlt|Hge].
  - split; [exact Hf|]. split.
    + simpl. split; [|exact Ha]. destruct s as [|i]; [done|]. apply Hk. lia.
    + unfold pc_inv. simpl. split; [done|]. split; [done|]. split.
      * rewrite data_writes_cons, Hd. by rewrite written_S.
      * by apply acks_upto_cons.
  - pose proof (reg_fresh_wait (sector_key (Z.of_nat s)) st Hf) as Hf'.
    rewrite wait_spec in *. simpl in *.
    split; [exact Hf'|]. split; [exact Ha|].
    unfold pc_inv. simpl. split; [done|]. split.
    + rewrite Hd. by apply written_full.
    + split; [done|]. intros k. rewrite lookup_insert.
      case_decide; [done|]. intros Hl. apply Hf in Hl. lia.
Qed.

(** The head of the outer loop keeps the invariant. *)
Lemma Inv_sector_loop (st : State) (s : nat) :
  reg_fresh st -> acked_before_next (trace st) ->
  s <= totalS raw ->
  data_writes (trace st) = wrt s 0 -> acks_upto s (trace st) ->
  Inv raw fastMode (sector_loop raw fastMode s st).
Proof.
  intros Hf Ha Hs Hd Hk. unfold sector_loop.
  destruct (Nat.ltb_spec s (totalS raw)) as [Hlt|Hge].
  - apply Inv_packet_loop; (done || lia).
  - split; [exact Hf|]. split; [simpl; done|].
    unfold pc_inv. simpl. rewrite data_writes_cons, Hd, app_nil_r.
    replace s with (totalS raw) by lia. apply written_total.
Qed.

(** The [catch] block ends the run and writes nothing. *)
Lemma Inv_catch_error (msg : string) (st : State) :
  reg_fresh st -> acked_before_next (trace st) ->
  data_writes (trace st) `prefix_of` allw ->
  Inv raw fastMode (catch_error msg st).
Proof.
  intros Hf Ha Hp. split; [exact Hf|]. split; [simpl; done|].
  unfold pc_inv. simpl. by rewrite data_writes_cons, app_nil_r.
Qed.

Lemma Inv_frame (st st' : State) :
  ackResolvers st' = ackResolvers st -> next_timer st <= next_timer st' ->
  pc st' = pc st -> data_writes (trace st') = data_writes (trace st) ->
  acked_before_next (trace st') ->
  (forall s, acks_upto s (trace st) -> acks_upto s (trace st')) ->
  Inv raw fastMode st -> Inv raw fastMode st'.
Proof.
  intros Hreg Hnext Hpc Hd Ha Hk (Hf & _ & Hi).
  split; [|split; [exact Ha|]].
  - intros k t. rewrite Hreg. intros Hl. apply Hf in Hl. lia.
  - unfold pc_inv in *. rewrite Hpc, Hd, Hreg.
    destruct (pc st); try exact Hi.
    + destruct Hi as (H1 & H2 & H3 & H4). auto.
    + destruct Hi as (H1 & H2 & H3 & H4). auto.
    + destruct Hi as (H1 & H2 & H3 & H4). auto.
Qed.

Lemma if_case {A} (P : A -> Prop) (b : bool) (x y : A) :
  (b = true -> P x) -> (b = false -> P y) -> P (if b then x else y).
Proof. destruct b; auto. Qed.

Lemma Inv_catch_error_of (msg : string) (st : State) :
  Inv raw fastMode st -> Inv raw fastMode (catch_error msg st).
Proof.
  intros (Hf & Ha & Hi). apply Inv_catch_error; try done. by apply pc_inv_prefix.
Qed.

(** A millisecond that fires nothing the run waits for. *)
Lemma Inv_pass_ms (st : State) : Inv raw fastMode st -> Inv raw fastMode (pass_ms st).
Proof. intros HI. apply (Inv_frame st); try done. by destruct HI as (_ & Ha & _). Qed.

Lemma Inv_clearTimeout (t : nat) (st : State) :
  Inv raw fastMode st -> Inv raw fastMode (clearTimeout t st).
Proof. intros HI. apply (Inv_frame st); try done. by destruct HI as (_ & Ha & _). Qed.

Lemma Inv_write_done (st : State) :
  Inv raw fastMode st -> Inv raw fastMode (write_done raw fastMode st).
Proof.
  intros HI. pose proof HI as (Hf & Ha & Hi). unfold write_done.
  unfold pc_inv in Hi. destruct (pc st) eqn:Hpc; try exact HI.
  - pose proof (reg_fresh_wait (cmd_key 1) st Hf) as Hf'.
    rewrite wait_spec in *. split; [exact Hf'|]. split; [exact Ha|]. exact Hi.
  - destruct Hi as (Hs & Hp & Hd & Hk).
    apply (if_case (Inv raw fastMode)); intros _.
    + apply Inv_packet_loop; (done || lia).
    + split; [|split; [exact Ha|]].
      * intros k t Hl. apply Hf in Hl. simpl. lia.
      * unfold pc_inv. simpl. done.
  - pose proof (reg_fresh_wait (cmd_key 2) st Hf) as Hf'.
    rewrite wait_spec in *. split; [exact Hf'|]. split; [exact Ha|]. exact Hi.
Qed.

Lemma Inv_io_failed (msg : string) (st : State) :
  Inv raw fastMode st -> Inv raw fastMode (io_failed msg st).
Proof.
  intros HI. unfold io_failed.
  destruct (pc st); try exact HI; by apply Inv_catch_error_of.
Qed.

Lemma Inv_file_loaded (st : State) :
  Inv raw fastMode st -> Inv raw fastMode (file_loaded raw fastMode st).
Proof.
  intros HI. pose proof HI as (Hf & Ha & Hi). unfold file_loaded.
  unfold pc_inv in Hi. destruct (pc st) eqn:Hpc; try exact HI.
  apply Inv_sector_loop; try done; [lia|]. intros i Hlt. lia.
Qed.

(** The awaited promise resolves: the acknowledgement is recorded and the
    run goes on from the [await]. *)
Lemma Inv_resolved (st : State) (key : string) (t : nat) (status : Z) :
  Inv raw fastMode st ->
  waiting_on (pc st) = Some t -> ackResolvers st !! key = Some t ->
  Inv raw fastMode
      (resolved raw fastMode status (observe (Acked key status) (clearTimeout t st))).
Proof.
  intros HI Hw Hreg. pose proof HI as (Hf & Ha & Hi).
  unfold resolved. simpl. unfold pc_inv in Hi.
  destruct (pc st) eqn:Hpc; simplify_eq/=.
  - destruct (status =? 0)%Z.
    + split; [exact Hf|]. split; [simpl; done|].
      unfold pc_inv. simpl. by rewrite data_writes_cons, app_nil_r.
    + apply Inv_catch_error; simpl; try done.
      rewrite data_writes_cons, app_nil_r, Hi. apply prefix_nil.
  - destruct Hi as (Hs & Hd & Hk & Hkey).
    destruct (Z.eqb_spec status 0) as [->|Hne].
    + apply Inv_sector_loop; simpl; try done.
      * by rewrite !data_writes_cons, !app_nil_r.
      * rewrite (Hkey key Hreg). apply acks_upto_S.
        -- by do 2 apply acks_upto_cons.
        -- right. by left.
    + apply Inv_catch_error; simpl; try done.
      rewrite data_writes_cons, app_nil_r, Hd.
      apply (written_prefix (S s) 0). lia.
  - split; [exact Hf|]. split; [simpl; done|].
    unfold pc_inv. simpl. by rewrite !data_writes_cons, !app_nil_r, Hi.
Qed.

Lemma Inv_handleAck (prefix : Prefix) (v : list Z) (st : State) :
  Inv raw fastMode st -> Inv raw fastMode (handleAck raw fastMode prefix v st).
Proof.
  intros HI.
  destruct (resolver_hit prefix v (ackResolvers st)) as [t|] eqn:Hhit.
  - destruct (handleAck_hit raw fastMode _ _ _ _ Hhit) as (key & status & Hreg & ->).
    unfold call_resolver. case_decide.
    + by apply Inv_resolved.
    + by apply Inv_clearTimeout.
  - by rewrite handleAck_miss.
Qed.

Lemma Inv_tick (st : State) :
  Inv raw fastMode st -> Inv raw fastMode (tick raw fastMode st).
Proof.
  intros HI. pose proof (Inv_pass_ms st HI) as HI1.
  unfold tick. fold (pass_ms st).
  destruct (pc st) eqn:Hpc; try exact HI1.
  - destruct (timers st !! w) as [d|]; [|exact HI1].
    destruct (d <=? now st + 1)%Z; [by apply Inv_catch_error_of|exact HI1].
  - destruct (timers st !! t) as [d|]; [|exact HI1].
    destruct (d <=? now st + 1)%Z; [|exact HI1].
    destruct HI1 as (Hf & Ha & Hi). unfold pc_inv in Hi. simpl in Hi. rewrite Hpc in Hi.
    destruct Hi as (Hs & Hp & Hd & Hk).
    apply Inv_packet_loop; (done || lia).
  - destruct (timers st !! w) as [d|]; [|exact HI1].
    destruct (d <=? now st + 1)%Z; [by apply Inv_catch_error_of|exact HI1].
  - destruct (timers st !! w) as [d|]; [|exact HI1].
    destruct (d <=? now st + 1)%Z; [by apply Inv_catch_error_of|exact HI1].
Qed.

Lemma Inv_disconnected (st : State) :
  Inv raw fastMode st -> Inv raw fastMode (disconnected st).
Proof.
  intros HI. apply (Inv_frame st); try done.
  - simpl. by rewrite data_writes_cons, app_nil_r.
  - simpl. by destruct HI as (_ & Ha & _).
  - intros s. apply acks_upto_cons.
Qed.

Lemma Inv_step (st : State) (ev : Event) :
  Inv raw fastMode st -> Inv raw fastMode (step raw fastMode st ev).
Proof.
  intros HI. destruct ev; simpl.
  - by apply Inv_write_done.
  - by apply Inv_io_failed.
  - by apply Inv_file_loaded.
  - by apply Inv_handleAck.
  - by apply Inv_tick.
  - by apply Inv_disconnected.
Qed.

Lemma Inv_run (evs : list Event) (st : State) :
  Inv raw fastMode st -> Inv raw fastMode (run raw fastMode st evs).
Proof.
  revert st. induction evs as [|ev evs IH]; intros st HI; [done|].
  simpl. by apply IH, Inv_step.
Qed.

(** A run started on a page with nothing in flight. *)
Lemma Inv_start (st0 : State) :
  ble st0 = true -> reg_fresh st0 -> trace st0 = [] ->
  Inv raw fastMode (runOta (Some raw) fastMode st0).
Proof.
  intros Hble Hf Htr. unfold runOta. rewrite Hble.
  split; [exact Hf|]. split; [simpl; rewrite Htr; simpl; done|].
  unfold pc_inv. simpl. rewrite Htr. reflexivity.
Qed.

Lemma reg_fresh_init : reg_fresh init.
Proof. intros k t Hl. simpl in Hl. by rewrite lookup_empty in Hl. Qed.

(** The recursive reading of [acked_before_next], spelled out. *)
Lemma acked_before_next_split (tr newer older : list Obs) (i p : nat) (b : list Z) :
  acked_before_next tr -> tr = newer ++ DataWrite (S i) p b :: older ->
  In (Acked (sector_key (Z.of_nat i)) 0%Z) older.
Proof.
  revert tr. induction newer as [|o newer IH]; intros tr Ha ->.
  - simpl in Ha. tauto.
  - simpl in Ha. destruct Ha as [_ Ha]. by eapply IH.
Qed.

End Order.

(** C8. [runOta] is started on a page with nothing in flight (no run
    suspended, every stored resolver made by an earlier [wait], the
    trace taken from this start). Whatever events arrive then, in
    whatever order: a packet of sector [i + 1] is in the trace only after
    (the trace is newest first) the wait for 'sector_i' has resolved with
    status 0; and the data packets written so far are an initial segment
    of the packets of sector 0, then of sector 1, ... each sector's in
    sequence order, so no sector is skipped or sent out of turn. *)
Theorem sectors_sent_in_order_after_ack
        (raw : list Z) (fastMode : bool) (st0 : State) (evs : list Event) :
  ble st0 = true -> pc st0 = PcNone -> reg_fresh st0 -> trace st0 = [] ->
  let st := run raw fastMode (runOta (Some raw) fastMode st0) evs in
  (forall newer older i p b,
     trace st = newer ++ DataWrite (S i) p b :: older ->
     In (Acked (sector_key (Z.of_nat i)) 0%Z) older) /\
  data_writes (trace st) `prefix_of` all_writes raw fastMode.
Proof.
  intros Hble _ Hfresh Htr st.
  destruct (Inv_run raw fastMode evs _ (Inv_start raw fastMode st0 Hble Hfresh Htr))
    as (Hf & Ha & Hi).
  fold st in Ha, Hi. split.
  - intros newer older i p b Htrace.
    by apply (acked_before_next_split (trace st) newer older i p b).
  - by apply pc_inv_prefix.
Qed.

(** The theorem at the first run after [connect], a two-sector image in
    fast mode, on a link that fails while sector 1 is being written. *)
Lemma sectors_sent_in_order_after_ack_witness :
  let raw := replicate 4097 7%Z in
  let evs := [EvWriteOk; cmd_ack 1 0; EvFileLoaded]
             ++ sector_events raw true 0 ++ [EvWriteOk; EvIoError "GATT"; sector_ack 1 0] in
  let st := run raw true (runOta (Some raw) true init) evs in
  (forall newer older i p b,
     trace st = newer ++ DataWrite (S i) p b :: older ->
     In (Acked (sector_key (Z.of_nat i)) 0%Z) older) /\
  data_writes (trace st) `prefix_of` all_writes raw true.
Proof.
  apply (sectors_sent_in_order_after_ack (replicate 4097 7%Z) true init).
  - reflexivity.
  - reflexivity.
  - apply reg_fresh_init.
  - reflexivity.
Defined.

(** ** A device that accepts every step *)

Section Accepting.
Variable raw : list Z.

#[local] Arguments sector_key : simpl never.
#[local] Arguments cmd_key : simpl never.
#[local] Arguments pBuf : simpl never.
#[local] Arguments progress_of : simpl never.
#[local] Arguments packet_loop : simpl never.
#[local] Arguments sector_loop : simpl never.

Lemma run_app (fastMode : bool) (st : State) (evs1 evs2 : list Event) :
  run raw fastMode st (evs1 ++ evs2) = run raw fastMode (run raw fastMode st evs1) evs2.
Proof. unfold run. apply foldl_app. Qed.

Lemma run_one (fastMode : bool) (st : State) (ev : Event) :
  run raw fastMode st [ev] = step raw fastMode st ev.
Proof. reflexivity. Qed.

Lemma run_two (fastMode : bool) (st : State) (ev1 ev2 : Event) :
  run raw fastMode st [ev1; ev2] = step raw fastMode (step raw fastMode st ev1) ev2.
Proof. reflexivity. Qed.

Lemma write_done_finish (fastMode : bool) (st : State) :
  step raw fastMode (finish st) EvWriteOk
  = set_pc (PcWaitCmd2 (next_timer st)) (wait (cmd_key 2) (finish st)).2.
Proof. reflexivity. Qed.

Lemma shows_as_refl (st : State) : shows_as st st.
Proof. by repeat split. Qed.

Lemma shows_as_trans (st1 st2 st3 : State) :
  shows_as st1 st2 -> shows_as st2 st3 -> shows_as st1 st3.
Proof. unfold shows_as. intros (-> & -> & -> & ->) (-> & -> & -> & ->). done. Qed.

(** The pause of line 149: the run sleeps for [k + 1] ticks, then the
    inner loop goes on with the next packet. *)
Lemma sleep_ticks (fastMode : bool) (k : nat) (st : State) (s p t : nat) :
  pc st = PcSleep s p t ->
  timers st !! t = Some (now st + Z.of_nat (S k))%Z ->
  exists st1, run raw fastMode st (repeat EvTick (S k)) = packet_loop raw fastMode s (S p) st1 /\
              shows_as st1 st.
Proof.
  revert st. induction k as [|k IH]; intros st Hpc Ht.
  - exists (pass_ms st). split; [|by repeat split].
    simpl. unfold tick. fold (pass_ms st). rewrite Hpc, Ht.
    by destruct (Z.leb_spec (now st + Z.of_nat 1) (now st + 1)); [|lia].
  - destruct (IH (pass_ms st)) as (st1 & Hrun & Hshow).
    + exact Hpc.
    + simpl. rewrite map_lookup_filter_Some. split; [|simpl; lia].
      rewrite Ht. f_equal. lia.
    + exists st1. split; [|eapply shows_as_trans; [exact Hshow|by repeat split]].
      rewrite <- Hrun. change (repeat EvTick (S (S k))) with (EvTick :: repeat EvTick (S k)).
      simpl. f_equal. unfold tick. fold (pass_ms st). rewrite Hpc, Ht.
      by destruct (Z.leb_spec (now st + Z.of_nat (S (S k))) (now st + 1)); [lia|].
Qed.

(** One packet: the write completes and, in safe mode, 12 ms pass. *)
Lemma one_packet (fastMode : bool) (st : State) (s p : nat) :
  pc st = PcDataWrite s p ->
  exists st1, run raw fastMode st (packet_events fastMode)
              = packet_loop raw fastMode s (S p) st1 /\
              shows_as st1 st.
Proof.
  intros Hpc. unfold packet_events. destruct fastMode.
  - exists st. split; [|apply shows_as_refl]. simpl. unfold write_done. by rewrite Hpc.
  - change (EvWriteOk :: repeat EvTick 12) with ([EvWriteOk] ++ repeat EvTick (S 11)).
    rewrite run_app. simpl run at 2. unfold write_done. rewrite Hpc.
    destruct (sleep_ticks false 11 (set_pc (PcSleep s p (next_timer st)) (setTimeout 12 st).2) s p (next_timer st))
      as (st1 & Hrun & Hshow); [done|simpl; by rewrite lookup_insert_eq|].
    exists st1. split; [exact Hrun|].
    eapply shows_as_trans; [exact Hshow|by repeat split].
Qed.

(** The remaining [k] packets of a sector. *)
Lemma packets_of_sector (fastMode : bool) (k : nat) (s p : nat) (st0 : State) :
  p + k = pkts (sData raw s) (pSize fastMode) ->
  data_writes (trace st0) = written raw fastMode s p ->
  exists st1,
    run raw fastMode (packet_loop raw fastMode s p st0)
        (concat (repeat (packet_events fastMode) k))
    = packet_loop raw fastMode s (p + k) st1 /\
    data_writes (trace st1) = written raw fastMode s (p + k) /\
    progress_events (trace st1) = progress_events (trace st0) /\
    progress_on_ack (trace st1) = progress_on_ack (trace st0) /\
    otaStatus st1 = otaStatus st0 /\ progress st1 = progress st0 /\ logs st1 = logs st0.
Proof.
  revert p st0. induction k as [|k IH]; intros p st0 Hk Hd.
  - exists st0. rewrite Nat.add_0_r. by repeat split.
  - change (concat (repeat (packet_events fastMode) (S k)))
      with (packet_events fastMode ++ concat (repeat (packet_events fastMode) k)).
    rewrite run_app.
    assert (Hlt : p < pkts (sData raw s) (pSize fastMode)) by lia.
    destruct (one_packet fastMode (packet_loop raw fastMode s p st0) s p)
      as (st1 & Hrun & (Htr & Hota & Hprog & Hlogs)).
    { unfold packet_loop. by destruct (Nat.ltb_spec p (pkts (sData raw s) (pSize fastMode))); [|lia]. }
    rewrite Hrun.
    assert (Hst : packet_loop raw fastMode s p st0
                  = set_pc (PcDataWrite s p)
                      (observe (DataWrite s p (pBuf s (sData raw s) (pSize fastMode) p)) st0)).
    { unfold packet_loop. by destruct (Nat.ltb_spec p (pkts (sData raw s) (pSize fastMode))); [|lia]. }
    rewrite Hst in Htr, Hota, Hprog, Hlogs. simpl in Htr, Hota, Hprog, Hlogs.
    destruct (IH (S p) st1) as (st2 & Hrun2 & Hd2 & Hp2 & Hpa2 & Hota2 & Hprog2 & Hlogs2).
    + lia.
    + rewrite Htr, data_writes_cons, Hd. by rewrite written_S.
    + exists st2. replace (p + S k) with (S p + k) by lia.
      split; [exact Hrun2|]. split; [exact Hd2|].
      split; [by rewrite Hp2, Htr, progress_events_cons, app_nil_r|].
      split; [by rewrite Hpa2, Htr|].
      split; [congruence|]. split; congruence.
Qed.

(** One sector: its packets go out, the acknowledgement arrives with
    status 0, the progress is set and the outer loop moves on. *)
Lemma one_sector (fastMode : bool) (s : nat) (st0 : State) :
  s < totalS raw -> (Z.of_nat s < 65536)%Z ->
  data_writes (trace st0) = written raw fastMode s 0 ->
  exists st1,
    run raw fastMode (sector_loop raw fastMode s st0) (sector_events raw fastMode s)
    = sector_loop raw fastMode (S s) st1 /\
    data_writes (trace st1) = written raw fastMode (S s) 0 /\
    progress_events (trace st1)
    = progress_events (trace st0) ++ [progress_of s (totalS raw)] /\
    progress_on_ack (trace st1)
    = progress_on_ack (trace st0) ++ [progress_of s (totalS raw)] /\
    otaStatus st1 = otaStatus st0 /\ progress st1 = progress_of s (totalS raw) /\
    logs st1 = logs st0.
Proof.
  intros Hs Hs16 Hd. unfold sector_events. rewrite run_app.
  assert (Hloop : sector_loop raw fastMode s st0 = packet_loop raw fastMode s 0 st0).
  { unfold sector_loop. by destruct (Nat.ltb_spec s (totalS raw)); [|lia]. }
  rewrite Hloop.
  destruct (packets_of_sector fastMode (pkts (sData raw s) (pSize fastMode)) s 0 st0)
    as (st1 & Hrun & Hd1 & Hp1 & Hpa1 & Hota1 & Hprog1 & Hlogs1); [done|done|].
  rewrite Hrun. simpl plus in *.
  set (n := pkts (sData raw s) (pSize fastMode)) in *.
  assert (Hwait : packet_loop raw fastMode s n st1
                  = set_pc (PcWaitSector s (next_timer st1))
                           (wait (sector_key (Z.of_nat s)) st1).2).
  { unfold packet_loop. fold n. by destruct (Nat.ltb_spec n n); [lia|]. }
  rewrite Hwait, run_one.
  rewrite (handleAck_sector_ack raw fastMode _ (Z.of_nat s) 0 (next_timer st1))
    by (lia || (simpl; apply lookup_insert_eq)).
  rewrite call_resolver_awaited by done.
  eexists. split; [reflexivity|]. simpl.
  split; [rewrite !data_writes_cons, !app_nil_r, Hd1; by apply written_full|].
  split; [by rewrite !progress_events_cons, app_nil_r, Hp1|].
  split; [by rewrite Hpa1|].
  done.
Qed.

Lemma default_last_cons {A} (d a : A) (l : list A) :
  default d (last (a :: l)) = default a (last l).
Proof. rewrite last_cons. by destruct (last l). Qed.

(** The sectors [s], [s + 1], ..., [s + n - 1]. *)
Lemma all_sectors (fastMode : bool) (n : nat) (s : nat) (st0 : State) :
  s + n <= totalS raw -> (Z.of_nat (totalS raw) <= 65536)%Z ->
  data_writes (trace st0) = written raw fastMode s 0 ->
  exists st1,
    run raw fastMode (sector_loop raw fastMode s st0)
        (flat_map (sector_events raw fastMode) (seq s n))
    = sector_loop raw fastMode (s + n) st1 /\
    data_writes (trace st1) = written raw fastMode (s + n) 0 /\
    progress_events (trace st1)
    = progress_events (trace st0) ++ map (fun i => progress_of i (totalS raw)) (seq s n) /\
    progress_on_ack (trace st1)
    = progress_on_ack (trace st0) ++ map (fun i => progress_of i (totalS raw)) (seq s n) /\
    otaStatus st1 = otaStatus st0 /\
    progress st1
    = default (progress st0) (last (map (fun i => progress_of i (totalS raw)) (seq s n))) /\
    logs st1 = logs st0.
Proof.
  revert s st0. induction n as [|n IH]; intros s st0 Hn H16 Hd.
  - exists st0. rewrite Nat.add_0_r, !app_nil_r. by repeat split.
  - change (flat_map (sector_events raw fastMode) (seq s (S n)))
      with (sector_events raw fastMode s ++ flat_map (sector_events raw fastMode) (seq (S s) n)).
    rewrite run_app.
    destruct (one_sector fastMode s st0)
      as (st1 & Hrun & Hd1 & Hp1 & Hpa1 & Hota1 & Hprog1 & Hlogs1); [lia|lia|done|].
    rewrite Hrun.
    destruct (IH (S s) st1) as (st2 & Hrun2 & Hd2 & Hp2 & Hpa2 & Hota2 & Hprog2 & Hlogs2);
      [lia|done|done|].
    exists st2. replace (s + S n) with (S s + n) by lia.
    split; [exact Hrun2|]. split; [exact Hd2|].
    split; [by rewrite Hp2, Hp1, <- app_assoc|].
    split; [by rewrite Hpa2, Hpa1, <- app_assoc|].
    split; [congruence|]. split; [|congruence].
    rewrite Hprog2, Hprog1. symmetry.
    apply (default_last_cons (progress st0) (progress_of s (totalS raw))).
Qed.

Lemma run_cons (fastMode : bool) (st : State) (ev : Event) (evs : list Event) :
  run raw fastMode st (ev :: evs) = run raw fastMode (step raw fastMode st ev) evs.
Proof. reflexivity. Qed.

(** Negotiation: the start command is written and accepted, and the file
    is read; the run is at the head of the outer loop. *)
Lemma negotiated (fastMode : bool) :
  exists st',
    run raw fastMode (runOta (Some raw) fastMode init) [EvWriteOk; cmd_ack 1 0; EvFileLoaded]
    = sector_loop raw fastMode 0 st' /\
    trace st' = [Acked (cmd_key 1) 0%Z;
                 CmdWrite (u16le 1 ++ u32le (Z.of_nat (length raw)));
                 SetProgress 0; SetOtaStatus ota_running] /\
    otaStatus st' = ota_running /\ progress st' = 0%Z /\ logs st' = [].
Proof.
  change (runOta (Some raw) fastMode init) with (start raw init).
  rewrite run_cons.
  change (step raw fastMode (start raw init) EvWriteOk)
    with (set_pc (PcWaitCmd1 (next_timer (start raw init)))
                 (wait (cmd_key 1) (start raw init)).2).
  rewrite run_cons.
  rewrite (handleAck_cmd_ack raw fastMode _ 1 0 (next_timer (start raw init)))
    by (lia || (simpl; apply lookup_insert_eq)).
  rewrite call_resolver_awaited by done.
  rewrite run_one.
  eexists. split; [reflexivity|]. by repeat split.
Qed.

(** The whole transfer against a device that accepts every step and
    answers the finish command with any status: the run ends in 'success',
    nothing is logged, every packet of every sector has been written in
    order, and the progress was reset to 0 and then set once per sector. *)
Lemma accepting_run (fastMode : bool) (finish_status : Z) :
  (Z.of_nat (totalS raw) <= 65536)%Z -> (0 <= finish_status < 65536)%Z ->
  let st := run raw fastMode (runOta (Some raw) fastMode init)
                (accepting raw fastMode finish_status) in
  pc st = PcNone /\ otaStatus st = ota_success /\ logs st = [] /\
  data_writes (trace st) = all_writes raw fastMode /\
  progress_events (trace st)
  = 0%Z :: map (fun s => progress_of s (totalS raw)) (seq 0 (totalS raw)) /\
  progress_on_ack (trace st)
  = map (fun s => progress_of s (totalS raw)) (seq 0 (totalS raw)) /\
  progress st
  = default 0%Z (last (map (fun s => progress_of s (totalS raw)) (seq 0 (totalS raw)))).
Proof.
  intros H16 Hfs st. unfold st, accepting. rewrite !run_app.
  destruct (negotiated fastMode) as (st' & -> & Htr & Hota & Hprog & Hlogs).
  destruct (all_sectors fastMode (totalS raw) 0 st')
    as (st1 & Hrun & Hd1 & Hp1 & Hpa1 & Hota1 & Hprog1 & Hlogs1); [lia|done|by rewrite Htr|].
  rewrite Hrun. simpl plus.
  assert (Hfin : sector_loop raw fastMode (totalS raw) st1 = finish st1).
  { unfold sector_loop. by destruct (Nat.ltb_spec (totalS raw) (totalS raw)); [lia|]. }
  rewrite Hfin, run_two, write_done_finish.
  rewrite (handleAck_cmd_ack raw fastMode _ 2 finish_status (next_timer st1))
    by (lia || (simpl; apply lookup_insert_eq)).
  rewrite call_resolver_awaited by done.
  simpl. split; [done|]. split; [done|]. split; [congruence|].
  split; [rewrite !data_writes_cons, !app_nil_r, Hd1; apply written_total|].
  split; [rewrite !progress_events_cons, !app_nil_r, Hp1, Htr; done|].
  split; [|congruence].
  rewrite Hpa1, Htr. done.
Qed.

End Accepting.

(** ** Progress *)


(** The quotient is rounded in binary64, as JavaScript does: at 23 sectors
    of 40 the double [23 / 40 * 100] is just below 57.5 and [Math.round]
    gives 57, where the rational 57.5 would round up to 58. *)
Lemma progress_of_is_binary64 :
  progress_of 22 40 = 57%Z /\ progress_exact 23 40 = 58%Z.
Proof. vm_compute. done. Qed.



(** ** The empty image *)

(** C6, counterexample. A 0-byte image against a device that accepts
    every step: the run ends in 'success' with the progress at 0; the only
    progress value ever set is the reset to 0 at the start. *)
Lemma empty_image_ends_at_progress_0 :
  let st := run [] false (runOta (Some []) false init) (accepting [] false 0) in
  otaStatus st = ota_success /\ progress st = 0%Z /\
  progress_events (trace st) = [0%Z].
Proof. vm_compute. done. Qed.

(** C6, as amended. For a 0-byte image, in either mode: the start command
    carries length 0 and is accepted; there is no sector, so reading the
    file leads straight to the finish command; no data packet is written;
    when the finish command is acknowledged the run ends in 'success'; and
    the progress stays at the 0 it was reset to. *)
Theorem empty_image_succeeds_at_progress_0 (fastMode : bool) :
  let go := run [] fastMode (runOta (Some []) fastMode init) in
  let st := go (accepting [] fastMode 0) in
  sectors_of [] = [] /\
  accepting [] fastMode 0 = [EvWriteOk; cmd_ack 1 0; EvFileLoaded; EvWriteOk; cmd_ack 2 0] /\
  pc (go [EvWriteOk; cmd_ack 1 0]) = PcReadFile /\
  pc (go [EvWriteOk; cmd_ack 1 0; EvFileLoaded]) = PcFinishWrite /\
  pc st = PcNone /\ otaStatus st = ota_success /\ logs st = [] /\
  data_writes (trace st) = [] /\
  rev (trace st)
  = [SetOtaStatus ota_running; SetProgress 0;
     CmdWrite [1; 0; 0; 0; 0; 0]%Z; Acked (cmd_key 1) 0;
     CmdWrite [2; 0]%Z; Acked (cmd_key 2) 0; SetOtaStatus ota_success] /\
  progress st = 0%Z /\ progress_events (trace st) = [0%Z].
Proof.
  intros go st.
  destruct (accepting_run [] fastMode 0) as (Hpc & Hota & Hlogs & Hd & Hp & _ & Hprog);
    [by vm_compute|lia|].
  fold go in Hpc, Hota, Hlogs, Hd, Hp, Hprog. fold st in Hpc, Hota, Hlogs, Hd, Hp, Hprog.
  split; [reflexivity|]. split; [reflexivity|].
  split; [by destruct fastMode|]. split; [by destruct fastMode|].
  split; [exact Hpc|]. split; [exact Hota|]. split; [exact Hlogs|].
  split; [exact Hd|]. split; [by destruct fastMode; vm_compute|].
  split; [exact Hprog|exact Hp].
Qed.


(** * Further properties of the code *)

(** ** More ways to read a state *)

(** The command writes, oldest first. *)
Definition cmd_writes (tr : list Obs) : list (list Z) :=
  omap (fun o => match o with CmdWrite b => Some b | _ => None end) (rev tr).

(** The terminal status writes of [runOta]: 'success' and 'failed'. *)
Definition outcomes (tr : list Obs) : list OtaStatus :=
  omap (fun o => match o with
                 | SetOtaStatus ota_success => Some ota_success
                 | SetOtaStatus ota_failed => Some ota_failed
                 | _ => None
                 end) (rev tr).

(** The value of a little-endian byte string. *)
Fixpoint le_value (bytes : list Z) : Z :=
  match bytes with
  | [] => 0
  | b :: rest => b + 256 * le_value rest
  end.

(** The timer handle the coroutine is suspended on: the timeout of a
    [wait], or the pause of line 149. *)
Definition awaited_timer (p : Pc) : option nat :=
  match p with
  | PcWaitCmd1 w | PcWaitSector _ w | PcWaitCmd2 w => Some w
  | PcSleep _ _ t => Some t
  | _ => None
  end.


(** The key a notification names, when it is long enough to be read (and,
    on the command characteristic, has [ackType] 3). *)
Definition named_key (prefix : Prefix) (v : list Z) : option string :=
  match prefix with
  | prefix_cmd =>
      match getUint16 v 0, getUint16 v 2, getUint16 v 4 with
      | Some ackType, Some originalCmd, Some _ =>
          if (ackType =? 3)%Z then Some (cmd_key originalCmd) else None
      | _, _, _ => None
      end
  | prefix_sector =>
      match getUint16 v 0, getUint16 v 2 with
      | Some sector, Some _ => Some (sector_key sector)
      | _, _ => None
      end
  end.

(** The 'Deploy Firmware' button (line 241):
    [disabled={!file || connStatus !== 'ready' || otaStatus === 'running'}]. *)
Definition deploy_disabled (file : option (list Z)) (st : State) : bool :=
  match file with None => true | Some _ => false end
  || match connStatus st with conn_ready => false | _ => true end
  || match otaStatus st with ota_running => true | _ => false end.

(** The connect button and the file input (lines 200, 218):
    [disabled={otaStatus === 'running'}]. *)
Definition connect_disabled (st : State) : bool :=
  match otaStatus st with ota_running => true | _ => false end.

(** [localStorage], and the throughput preference kept in it (lines 34,
    38-40): [String(fastMode)] is stored under 'ota_fast_mode', and read
    back as [localStorage.getItem('ota_fast_mode') === 'true']. *)
Definition String_of_bool (b : bool) : string := if b then "true" else "false".

Definition store_fast_mode (fastMode : bool) (ls : gmap string string) : gmap string string :=
  <["ota_fast_mode" := String_of_bool fastMode]> ls.

Definition load_fast_mode (ls : gmap string string) : bool :=
  bool_decide (ls !! "ota_fast_mode" = Some "true").

(** [clearLogs] (lines 54-56). *)
Definition clearLogs (st : State) : State :=
  mkState (ackResolvers st) (timers st) (next_timer st) (now st) (pc st) (ble st)
          (connStatus st) (otaStatus st) (progress st) [] (trace st).


(** ** What notifications are dropped *)

Lemma getUint16_short (v : list Z) (off : nat) :
  length v <= S off -> getUint16 v off = None.
Proof.
  intros Hlen. unfold getUint16.
  rewrite (lookup_ge_None_2 v (S off)) by lia. by destruct (v !! off).
Qed.

Lemma named_key_hit (prefix : Prefix) (v : list Z) (reg : gmap string nat) :
  resolver_hit prefix v reg = named_key prefix v ≫= (fun k => reg !! k).
Proof.
  unfold resolver_hit, named_key.
  destruct prefix; repeat case_match; done.
Qed.

(** X1. A notification is dropped, and the state is what it was, when its
    value is too short to hold the fields [handleAck] reads (6 bytes on
    the command characteristic, 4 on the data characteristic), when a
    command notification has an [ackType] other than 3, or when no
    resolver is stored under the key it names. *)
Theorem notification_dropped
        (raw : list Z) (fastMode : bool) (prefix : Prefix) (v : list Z) (st : State) :
  length v < (match prefix with prefix_cmd => 6 | prefix_sector => 4 end)
  \/ (prefix = prefix_cmd /\ getUint16 v 0 <> Some 3%Z)
  \/ (forall k, named_key prefix v = Some k -> ackResolvers st !! k = None) ->
  step raw fastMode st (EvNotify prefix v) = st.
Proof.
  intros H. simpl. apply handleAck_miss. rewrite named_key_hit.
  destruct H as [Hlen|[[-> Hty]|Hreg]].
  - unfold named_key. destruct prefix.
    + by rewrite (getUint16_short v 4) by lia; repeat case_match.
    + by rewrite (getUint16_short v 2) by lia; repeat case_match.
  - unfold named_key. repeat case_match; try done.
    exfalso. apply Hty. f_equal. lia.
  - destruct (named_key prefix v) as [k|] eqn:Hk; [|done]. simpl. by apply Hreg.
Qed.

(** The theorem at a command notification cut short after four bytes. *)
Lemma notification_dropped_witness :
  step [7%Z] true (run [7%Z] true (runOta (Some [7%Z]) true init) [EvWriteOk])
       (EvNotify prefix_cmd [3; 0; 1; 0]%Z)
  = run [7%Z] true (runOta (Some [7%Z]) true init) [EvWriteOk].
Proof.
  apply (notification_dropped [7%Z] true prefix_cmd [3; 0; 1; 0]%Z).
  left. simpl. lia.
Defined.

(** ** How one event changes the state *)

Section Effects.
Variable raw : list Z.
Variable fastMode : bool.

#[local] Arguments sector_key : simpl never.
#[local] Arguments cmd_key : simpl never.
#[local] Arguments pBuf : simpl never.
#[local] Arguments progress_of : simpl never.

Lemma dom_wait (key : string) (st : State) :
  dom (ackResolvers (wait key st).2) = {[key]} ∪ dom (ackResolvers st).
Proof. rewrite wait_spec. simpl. apply dom_insert_L. Qed.

(** Entering the loops: the registry can only gain a key, and the
    connection, the statuses and the log are not touched. *)
Lemma packet_loop_keeps (s p : nat) (st : State) :
  let st' := packet_loop raw fastMode s p st in
  dom (ackResolvers st) ⊆ dom (ackResolvers st') /\ ble st' = ble st /\
  logs st' = logs st /\ otaStatus st' = otaStatus st /\
  connStatus st' = connStatus st /\ progress st' = progress st /\
  outcomes (trace st') = outcomes (trace st).
Proof.
  unfold packet_loop. case_match.
  - simpl. unfold outcomes. simpl. rewrite omap_app. simpl. by rewrite app_nil_r.
  - rewrite wait_spec. simpl. split; [|done]. rewrite dom_insert_L. apply union_subseteq_r.
Qed.

Lemma sector_loop_keeps (s : nat) (st : State) :
  let st' := sector_loop raw fastMode s st in
  dom (ackResolvers st) ⊆ dom (ackResolvers st') /\ ble st' = ble st /\
  logs st' = logs st /\ otaStatus st' = otaStatus st /\
  connStatus st' = connStatus st /\ progress st' = progress st /\
  outcomes (trace st') = outcomes (trace st).
Proof.
  unfold sector_loop. case_match; [apply packet_loop_keeps|].
  simpl. unfold outcomes. simpl. rewrite omap_app. simpl. by rewrite app_nil_r.
Qed.

Lemma length_addLog (msg type : string) (st : State) :
  length (logs (addLog msg type st)) = Nat.min 31 (S (length (logs st))).
Proof.
  change (length (logs (addLog msg type st))) with (S (length (slice (logs st) 0 30))).
  rewrite length_slice. lia.
Qed.

(** One event: no key leaves the registry, [ble.current] stays, and the
    log stays within 31 entries. *)
Lemma step_keeps (st : State) (ev : Event) :
  let st' := step raw fastMode st ev in
  dom (ackResolvers st) ⊆ dom (ackResolvers st') /\ ble st' = ble st /\
  (length (logs st) <= 31 -> length (logs st') <= 31).
Proof.
  assert (Hcatch : forall msg st0,
             dom (ackResolvers st0) ⊆ dom (ackResolvers (catch_error msg st0)) /\
             ble (catch_error msg st0) = ble st0 /\
             (length (logs st0) <= 31 -> length (logs (catch_error msg st0)) <= 31)).
  { intros msg st0. split; [done|]. split; [done|]. intros _.
    change (logs (catch_error msg st0))
      with (logs (addLog ("Error: " +:+ msg) "error" (setOtaStatus ota_failed st0))).
    rewrite length_addLog. lia. }
  destruct ev as [|msg| |prefix v| |]; simpl.
  - unfold write_done. destruct (pc st); try done.
    + rewrite wait_spec. simpl. split; [|done]. rewrite dom_insert_L. apply union_subseteq_r.
    + apply (if_case (fun x => dom (ackResolvers st) ⊆ dom (ackResolvers x) /\ ble x = ble st /\
                               (length (logs st) <= 31 -> length (logs x) <= 31))); intros _.
      * destruct (packet_loop_keeps s (S p) st) as (H1 & H2 & H3 & _). rewrite H3. done.
      * done.
    + rewrite wait_spec. simpl. split; [|done]. rewrite dom_insert_L. apply union_subseteq_r.
  - unfold io_failed. destruct (pc st); try done; apply Hcatch.
  - unfold file_loaded. destruct (pc st); try done.
    destruct (sector_loop_keeps 0 st) as (H1 & H2 & H3 & _). rewrite H3. done.
  - destruct (resolver_hit prefix v (ackResolvers st)) as [t|] eqn:Hhit.
    + destruct (handleAck_hit raw fastMode _ _ _ _ Hhit) as (key & status & _ & ->).
      unfold call_resolver. case_decide; [|done].
      unfold resolved. simpl pc. destruct (pc st); try done.
      * destruct (status =? 0)%Z; [done|]. apply (Hcatch "Rejected" (observe _ (clearTimeout t st))).
      * destruct (status =? 0)%Z;
          [|apply (Hcatch "Sector Error" (observe _ (clearTimeout t st)))].
        match goal with |- context [sector_loop raw fastMode ?a ?b] =>
          destruct (sector_loop_keeps a b) as (H1 & H2 & H3 & _) end.
        rewrite H3, H2. done.
    + by rewrite handleAck_miss.
  - unfold tick. fold (pass_ms st). destruct (pc st); try done.
    + destruct (timers st !! w); [|done].
      destruct (_ <=? _)%Z; [apply (Hcatch "ACK Timeout" (pass_ms st))|done].
    + destruct (timers st !! t); [|done].
      destruct (_ <=? _)%Z; [|done].
      destruct (packet_loop_keeps s (S p) (pass_ms st)) as (H1 & H2 & H3 & _).
      rewrite H3, H2. done.
    + destruct (timers st !! w); [|done].
      destruct (_ <=? _)%Z; [apply (Hcatch "ACK Timeout" (pass_ms st))|done].
    + destruct (timers st !! w); [|done].
      destruct (_ <=? _)%Z; [apply (Hcatch "ACK Timeout" (pass_ms st))|done].
  - done.
Qed.

End Effects.

(** X2. Nothing ever leaves the registry or forgets the connection:
    whatever events arrive, every key that had a resolver still has one
    and [ble.current] is what it was (a disconnect does not reset it, so
    the guard [!ble.current] of [runOta] only holds before the first
    connection). *)
Theorem registry_never_shrinks
        (raw : list Z) (fastMode : bool) (st : State) (evs : list Event) :
  dom (ackResolvers st) ⊆ dom (ackResolvers (run raw fastMode st evs)) /\
  ble (run raw fastMode st evs) = ble st.
Proof.
  revert st. induction evs as [|ev evs IH]; intros st; [done|].
  simpl. destruct (step_keeps raw fastMode st ev) as (Hd & Hb & _).
  destruct (IH (step raw fastMode st ev)) as (Hd' & Hb').
  split; [by etrans|congruence].
Qed.

(** X3. The log never holds more than 31 entries: [addLog] keeps the 30
    newest and puts the new one in front, and no event adds a line any
    other way. *)
Theorem logs_bounded (raw : list Z) (fastMode : bool) (st : State) (evs : list Event) :
  length (logs st) <= 31 ->
  length (logs (run raw fastMode st evs)) <= 31 /\
  (forall msg type, length (logs (addLog msg type st)) = Nat.min 31 (S (length (logs st)))) /\
  logs (clearLogs st) = [].
Proof.
  intros Hlen. split; [|split; [intros; apply length_addLog|done]].
  revert st Hlen. induction evs as [|ev evs IH]; intros st Hlen; [done|].
  simpl. apply IH. by apply (step_keeps raw fastMode st ev).
Qed.

(** The theorem at a log of 31 lines and a run that fails. *)
Lemma logs_bounded_witness :
  let st := runOta (Some [7%Z]) true
              (mkState ∅ ∅ 0 0%Z PcNone true conn_ready ota_idle 0
                       (replicate 31 ("System Ready", "success")) []) in
  length (logs (run [7%Z] true st [EvIoError "GATT"])) <= 31 /\
  (forall msg type, length (logs (addLog msg type st)) = Nat.min 31 (S (length (logs st)))) /\
  logs (clearLogs st) = [].
Proof.
  apply (logs_bounded [7%Z] true
           (runOta (Some [7%Z]) true
              (mkState ∅ ∅ 0 0%Z PcNone true conn_ready ota_idle 0
                       (replicate 31 ("System Ready", "success")) []))).
  vm_compute. lia.
Defined.

(** ** After the run has ended *)

Lemma trace_reads_cons (o : Obs) (tr : list Obs) :
  cmd_writes (o :: tr) = cmd_writes tr ++ match o with CmdWrite b => [b] | _ => [] end /\
  outcomes (o :: tr)
  = outcomes tr ++ match o with
                   | SetOtaStatus ota_success => [ota_success]
                   | SetOtaStatus ota_failed => [ota_failed]
                   | _ => []
                   end.
Proof.
  unfold cmd_writes, outcomes. simpl. rewrite !omap_app.
  split; [by destruct o|]. destruct o as [| | | |[]]; done.
Qed.

(** What an ended run has in common with the state it ended in. *)
Definition same_outputs (st' st : State) : Prop :=
  pc st' = PcNone /\
  data_writes (trace st') = data_writes (trace st) /\
  cmd_writes (trace st') = cmd_writes (trace st) /\
  outcomes (trace st') = outcomes (trace st) /\
  progress_events (trace st') = progress_events (trace st) /\
  progress st' = progress st /\ logs st' = logs st /\
  ackResolvers st' = ackResolvers st.

Lemma step_ended (raw : list Z) (fastMode : bool) (st : State) (ev : Event) :
  pc st = PcNone -> same_outputs (step raw fastMode st ev) st.
Proof.
  intros Hpc. unfold same_outputs. destruct ev as [|msg| |prefix v| |]; simpl.
  - unfold write_done. by rewrite Hpc.
  - unfold io_failed. by rewrite Hpc.
  - unfold file_loaded. by rewrite Hpc.
  - destruct (resolver_hit prefix v (ackResolvers st)) as [t|] eqn:Hhit.
    + destruct (handleAck_hit raw fastMode _ _ _ _ Hhit) as (key & status & _ & ->).
      rewrite call_resolver_stale by (by rewrite Hpc). done.
    + by rewrite handleAck_miss.
  - unfold tick. by rewrite Hpc.
  - rewrite data_writes_cons, progress_events_cons, !app_nil_r.
    destruct (trace_reads_cons (SetOtaStatus ota_idle) (trace st))
      as [-> ->].
    rewrite !app_nil_r. done.
Qed.

Lemma run_ended (raw : list Z) (fastMode : bool) (evs : list Event) (st : State) :
  pc st = PcNone -> same_outputs (run raw fastMode st evs) st.
Proof.
  revert st. induction evs as [|ev evs IH]; intros st Hpc; [by repeat split|].
  simpl. destruct (step_ended raw fastMode st ev Hpc) as (H1 & H2 & H3 & H4 & H5 & H6 & H7 & H8).
  destruct (IH _ H1) as (G1 & G2 & G3 & G4 & G5 & G6 & G7 & G8).
  repeat split; congruence.
Qed.

(** X4. Once the run has ended, by success or through the [catch] block,
    nothing that arrives later makes it act again: no event writes to
    either characteristic, sets the progress or a terminal status, adds a
    log line or changes the registry. (A disconnect still resets the two
    status fields.) *)
Theorem ended_run_is_inert
        (raw : list Z) (fastMode : bool) (st : State) (evs : list Event) :
  pc st = PcNone ->
  let st' := run raw fastMode st evs in
  pc st' = PcNone /\
  data_writes (trace st') = data_writes (trace st) /\
  cmd_writes (trace st') = cmd_writes (trace st) /\
  outcomes (trace st') = outcomes (trace st) /\
  progress_events (trace st') = progress_events (trace st) /\
  progress st' = progress st /\ logs st' = logs st /\
  ackResolvers st' = ackResolvers st.
Proof. intros Hpc st'. by apply run_ended. Qed.

(** The theorem at a run that timed out, followed by the late
    acknowledgement, a tick and a disconnect. *)
Lemma ended_run_is_inert_witness :
  let st := run [7%Z] true (runOta (Some [7%Z]) true init)
                (EvWriteOk :: replicate (Z.to_nat ACK_TIMEOUT_MS) EvTick) in
  let st' := run [7%Z] true st [cmd_ack 1 0; EvWriteOk; EvTick; EvDisconnect] in
  pc st' = PcNone /\
  data_writes (trace st') = data_writes (trace st) /\
  cmd_writes (trace st') = cmd_writes (trace st) /\
  outcomes (trace st') = outcomes (trace st) /\
  progress_events (trace st') = progress_events (trace st) /\
  progress st' = progress st /\ logs st' = logs st /\
  ackResolvers st' = ackResolvers st.
Proof.
  apply (ended_run_is_inert [7%Z] true
           (run [7%Z] true (runOta (Some [7%Z]) true init)
                (EvWriteOk :: replicate (Z.to_nat ACK_TIMEOUT_MS) EvTick))).
  vm_compute. reflexivity.
Defined.

(** ** Keys *)

Lemma sector_key_inj (a b : Z) : sector_key a = sector_key b -> a = b.
Proof.
  unfold sector_key. intros H. apply String.app_inj in H. by apply (inj pretty) in H.
Qed.

Lemma cmd_key_inj (a b : Z) : cmd_key a = cmd_key b -> a = b.
Proof.
  unfold cmd_key. intros H. apply String.app_inj in H. by apply (inj pretty) in H.
Qed.

Lemma cmd_key_not_sector_key (a b : Z) : cmd_key a <> sector_key b.
Proof. unfold cmd_key, sector_key. simpl. discriminate. Qed.

(** ** What holds of every state of a run *)

(** No timer is armed but [w]. *)
Definition only_timer (w : nat) (st : State) : Prop :=
  forall t d, timers st !! t = Some d -> t = w.

Definition no_timer (st : State) : Prop := forall t, timers st !! t = None.



(** The resolver of promise [w] is stored under [key] and nowhere else. *)
Definition keyed (w : nat) (key : string) (st : State) : Prop :=
  ackResolvers st !! key = Some w /\
  forall k, ackResolvers st !! k = Some w -> k = key.


Section Session.
Variable raw : list Z.
Variable fastMode : bool.

#[local] Arguments sector_key : simpl never.
#[local] Arguments cmd_key : simpl never.
#[local] Arguments pBuf : simpl never.
#[local] Arguments progress_of : simpl never.









Lemma only_timer_pass_ms (w : nat) (st : State) :
  only_timer w st -> only_timer w (pass_ms st).
Proof.
  intros Ho t d. simpl. intros Ht.
  apply map_lookup_filter_Some in Ht as [Ht _]. by apply Ho in Ht.
Qed.

Lemma no_timer_pass_ms (st : State) : no_timer st -> no_timer (pass_ms st).
Proof.
  intros Hn t. simpl.
  destruct (filter _ (timers st) !! t) as [d'|] eqn:Ht; [|done].
  apply map_lookup_filter_Some in Ht as [Ht _]. by rewrite Hn in Ht.
Qed.

Lemma only_timer_clearTimeout (w t : nat) (st : State) :
  only_timer w st -> only_timer w (clearTimeout t st).
Proof.
  intros Ho t' d. simpl. intros Ht. apply lookup_delete_Some in Ht as [_ Ht]. by apply Ho in Ht.
Qed.

Lemma no_timer_clearTimeout (t : nat) (st : State) :
  no_timer st -> no_timer (clearTimeout t st).
Proof.
  intros Hn t'. simpl. destruct (delete t (timers st) !! t') eqn:Ht; [|done].
  apply lookup_delete_Some in Ht as [_ Ht]. by rewrite Hn in Ht.
Qed.















End Session.








(** ** Which notification resumes the run *)

Section Correlation.
Variable raw : list Z.
Variable fastMode : bool.

#[local] Arguments sector_key : simpl never.
#[local] Arguments cmd_key : simpl never.
#[local] Arguments pBuf : simpl never.
#[local] Arguments progress_of : simpl never.






End Correlation.





(** ** Sector indices beyond 16 bits *)

Lemma getUint16_range (v : list Z) (off : nat) (x : Z) :
  Forall (fun b => (0 <= b < 256)%Z) v -> getUint16 v off = Some x ->
  (0 <= x < 65536)%Z.
Proof.
  intros Hv. unfold getUint16.
  destruct (v !! off) as [lo|] eqn:Hlo; [|done].
  destruct (v !! S off) as [hi|] eqn:Hhi; [|done].
  intros [= <-].
  pose proof (Forall_lookup_1 _ _ _ _ Hv Hlo) as H1.
  pose proof (Forall_lookup_1 _ _ _ _ Hv Hhi) as H2. simpl in H1, H2.
  rewrite lor_shiftl_bytes by done. lia.
Qed.

(** The values a notification can carry: bytes. *)
Definition byte_event (ev : Event) : Prop :=
  match ev with
  | EvNotify _ v => Forall (fun b => (0 <= b < 256)%Z) v
  | _ => True
  end.

Lemma byte_event_misses (reg : gmap string nat) (w : nat) (s : nat) (ev : Event) :
  (65536 <= Z.of_nat s)%Z ->
  (forall k, reg !! k = Some w -> k = sector_key (Z.of_nat s)) ->
  byte_event ev -> ~ reaches reg w ev.
Proof.
  intros Hs Huniq Hb. destruct ev as [| | |prefix v| |]; simpl; try tauto.
  rewrite named_key_hit. simpl in Hb.
  destruct (named_key prefix v) as [k|] eqn:Hk; [|done]. simpl.
  intros Hreg. apply Huniq in Hreg. subst k.
  unfold named_key in Hk. destruct prefix.
  - repeat case_match; simplify_eq; try by eapply cmd_key_not_sector_key.
  - destruct (getUint16 v 0) as [x|] eqn:Hx; [|done].
    destruct (getUint16 v 2); [|done].
    assert (Hk' : sector_key x = sector_key (Z.of_nat s)) by congruence.
    apply sector_key_inj in Hk'. apply (getUint16_range v 0 x Hb) in Hx. lia.
Qed.

(** X10. The wait key is [`sector_${s}`] with the loop counter, but a
    notification names a sector by 16 bits. So from sector 65536 on (an
    image over 256 MiB) no notification can resolve the wait: whatever
    notifications arrive, the run stays suspended until the tick that
    completes the timeout, and then fails with 'ACK Timeout'. *)
Theorem sector_65536_is_never_acknowledged
        (raw : list Z) (fastMode : bool) (st : State) (s w : nat) (d : Z)
        (evs : list Event) :
  pc st = PcWaitSector s w -> (65536 <= Z.of_nat s)%Z ->
  keyed w (sector_key (Z.of_nat s)) st -> timers st !! w = Some d ->
  Forall byte_event evs -> (now st + ticks evs = d - 1)%Z ->
  pc (run raw fastMode st evs) = PcWaitSector s w /\
  let st' := run raw fastMode st (evs ++ [EvTick]) in
  pc st' = PcNone /\ otaStatus st' = ota_failed /\
  head (logs st') = Some ("Error: ACK Timeout", "error").
Proof.
  intros Hpc Hs (Hreg & Huniq) Ht Hb Hn.
  assert (Hsus : suspended_on w d (ackResolvers st) (pc st) st) by (by rewrite Hpc).
  assert (Hq : Forall (fun ev => ~ reaches (ackResolvers st) w ev) evs).
  { eapply Forall_impl; [exact Hb|]. intros ev. by apply (byte_event_misses _ w s). }
  destruct (run_suspended raw fastMode evs st _ _ _ _ Hsus Hq) as [(H1 & _ & H3 & _) H5]; [lia|].
  split; [congruence|]. intros st'. unfold st'. rewrite run_snoc. simpl.
  rewrite (tick_waiting_due _ _ _ w d) by (rewrite ?H1, ?Hpc; done || lia).
  done.
Qed.

(** The theorem at the wait for sector 65536, when the acknowledgement of
    sector 0 (65536 in 16 bits) arrives. *)
Lemma sector_65536_is_never_acknowledged_witness :
  let s := Z.to_nat 65536 in
  let st := mkState {[sector_key (Z.of_nat s) := 0]} {[0 := 1%Z]} 1 0%Z (PcWaitSector s 0)
                    true conn_ready ota_running 0 [] [] in
  pc (run [] true st [sector_ack 0 0]) = PcWaitSector s 0 /\
  let st' := run [] true st ([sector_ack 0 0] ++ [EvTick]) in
  pc st' = PcNone /\ otaStatus st' = ota_failed /\
  head (logs st') = Some ("Error: ACK Timeout", "error").
Proof.
  apply (sector_65536_is_never_acknowledged [] true
           (mkState {[sector_key (Z.of_nat (Z.to_nat 65536)) := 0]} {[0 := 1%Z]} 1 0%Z
                    (PcWaitSector (Z.to_nat 65536) 0) true conn_ready ota_running 0 [] [])
           (Z.to_nat 65536) 0 1).
  - reflexivity.
  - vm_compute. discriminate.
  - split; [apply lookup_singleton_eq|].
    intros k Hk. cbn [ackResolvers] in Hk. apply lookup_singleton_Some in Hk as [Hk _].
    symmetry. exact Hk.
  - reflexivity.
  - apply Forall_cons_2; [|apply Forall_nil_2].
    change (Forall (fun b => (0 <= b < 256)%Z) (u16le 0 ++ u16le 0)).
    replace (u16le 0 ++ u16le 0) with [0; 0; 0; 0]%Z by (vm_compute; reflexivity).
    repeat (apply Forall_cons_2; [lia|]). apply Forall_nil_2.
  - reflexivity.
Defined.

(** ** The pause between packets *)

(** The run is asleep on timer [t], due at [d], with [dw] written so far. *)
Definition sleeping_on (t : nat) (d : Z) (p : Pc) (dw : list (nat * nat * list Z))
           (st : State) : Prop :=
  pc st = p /\ awaited_timer p = Some t /\ waiting_on p = None /\
  timers st !! t = Some d /\ (forall k, ackResolvers st !! k <> Some t) /\
  data_writes (trace st) = dw.

Section Pause.
Variable raw : list Z.

#[local] Arguments sector_key : simpl never.
#[local] Arguments cmd_key : simpl never.
#[local] Arguments pBuf : simpl never.

Lemma step_sleeping (st : State) (t : nat) (d : Z) (p : Pc)
      (dw : list (nat * nat * list Z)) (ev : Event) :
  sleeping_on t d p dw st -> (now st + ticks [ev] < d)%Z ->
  sleeping_on t d p dw (step raw false st ev) /\
  now (step raw false st ev) = (now st + ticks [ev])%Z.
Proof.
  unfold sleeping_on. intros (Hpc & Ha & Hw & Ht & Hreg & Hd) Hlt. subst p.
  destruct ev as [|msg| |prefix v| |]; simpl in *.
  - unfold write_done. destruct (pc st) eqn:Hpc; simplify_eq/=; (split; [done|lia]).
  - unfold io_failed. destruct (pc st) eqn:Hpc; simplify_eq/=; (split; [done|lia]).
  - unfold file_loaded. destruct (pc st) eqn:Hpc; simplify_eq/=; (split; [done|lia]).
  - destruct (resolver_hit prefix v (ackResolvers st)) as [t'|] eqn:Hhit.
    + destruct (handleAck_hit raw false _ _ _ _ Hhit) as (key & status & Hk & ->).
      rewrite call_resolver_stale by congruence.
      split; [|simpl; lia]. repeat split; try done. simpl.
      rewrite lookup_delete_ne; [done|]. intros ->. by apply Hreg in Hk.
    + rewrite handleAck_miss by done. split; [done|lia].
  - unfold tick. fold (pass_ms st).
    destruct (pc st) eqn:Hpc; simplify_eq/=. rewrite Ht.
    destruct (Z.leb_spec d (now st + 1)); [lia|].
    split; [|simpl; lia]. repeat split; try done. simpl.
    apply map_lookup_filter_Some. split; [done|simpl; lia].
  - split; [|lia]. repeat split; try done.
    by rewrite data_writes_cons, app_nil_r.
Qed.

Lemma run_sleeping (evs : list Event) (st : State) (t : nat) (d : Z) (p : Pc)
      (dw : list (nat * nat * list Z)) :
  sleeping_on t d p dw st -> (now st + ticks evs < d)%Z ->
  sleeping_on t d p dw (run raw false st evs) /\
  now (run raw false st evs) = (now st + ticks evs)%Z.
Proof.
  revert st. induction evs as [|ev evs IH]; intros st Hs Hd.
  - simpl. split; [done|lia].
  - assert (Hnn : forall l, (0 <= ticks l)%Z)
      by (induction l as [|[] l IHl]; simpl; lia).
    assert (Hsum : ticks (ev :: evs) = (ticks [ev] + ticks evs)%Z)
      by (destruct ev; simpl; lia).
    pose proof (Hnn [ev]). pose proof (Hnn evs).
    destruct (step_sleeping st t d p dw ev Hs) as [Hs' Hn']; [lia|].
    destruct (IH (step raw false st ev) Hs') as [Hs'' Hn'']; [lia|].
    split; [exact Hs''|]. simpl in *. lia.
Qed.

End Pause.

(** X11. In safe mode ([fastMode] false) the packets are at least 12 ms
    apart: after the write of packet [p] has completed, whatever else
    arrives, nothing is written to the data characteristic while fewer
    than 12 ticks have passed, and the twelfth tick sends the run back to
    the head of the inner loop, which writes packet [p + 1] if the sector
    has one. In fast mode the completed write leads there at once. *)
Theorem safe_mode_pause (raw : list Z) (st : State) (s p : nat) :
  pc st = PcDataWrite s p -> reg_fresh st ->
  let st1 := step raw false st EvWriteOk in
  (forall evs, (ticks evs < 12)%Z ->
     pc (run raw false st1 evs) = PcSleep s p (next_timer st) /\
     data_writes (trace (run raw false st1 evs)) = data_writes (trace st)) /\
  (forall evs, ticks evs = 11%Z ->
     exists st2, run raw false st1 (evs ++ [EvTick]) = packet_loop raw false s (S p) st2 /\
                 data_writes (trace st2) = data_writes (trace st)) /\
  step raw true st EvWriteOk = packet_loop raw true s (S p) st.
Proof.
  intros Hpc Hf st1.
  assert (Hs : sleeping_on (next_timer st) (now st + 12) (PcSleep s p (next_timer st))
                           (data_writes (trace st)) st1).
  { unfold st1. simpl. unfold write_done. rewrite Hpc. simpl.
    repeat split; try done; [apply lookup_insert_eq|].
    intros k Hk. apply Hf in Hk. lia. }
  assert (Hnow : now st1 = now st).
  { unfold st1. simpl. unfold write_done. by rewrite Hpc. }
  split; [|split].
  - intros evs Hlt.
    destruct (run_sleeping raw evs st1 _ _ _ _ Hs) as [(H1 & _ & _ & _ & _ & H6) _]; [lia|done].
  - intros evs Hticks.
    destruct (run_sleeping raw evs st1 _ _ _ _ Hs) as [(H1 & _ & _ & H4 & _ & H6) Hn]; [lia|].
    exists (pass_ms (run raw false st1 evs)). split; [|exact H6].
    rewrite run_snoc. simpl. unfold tick. fold (pass_ms (run raw false st1 evs)).
    rewrite H1, H4.
    by destruct (Z.leb_spec (now st + 12) (now (run raw false st1 evs) + 1)); [|lia].
  - simpl. unfold write_done. by rewrite Hpc.
Qed.

(** The theorem at packet 0 of a 41-byte image (three packets in safe mode). *)
Lemma safe_mode_pause_witness :
  let raw := replicate 41 7%Z in
  let st := run raw false (runOta (Some raw) false init)
                [EvWriteOk; cmd_ack 1 0; EvFileLoaded] in
  let st1 := step raw false st EvWriteOk in
  (forall evs, (ticks evs < 12)%Z ->
     pc (run raw false st1 evs) = PcSleep 0 0 (next_timer st) /\
     data_writes (trace (run raw false st1 evs)) = data_writes (trace st)) /\
  (forall evs, ticks evs = 11%Z ->
     exists st2, run raw false st1 (evs ++ [EvTick]) = packet_loop raw false 0 1 st2 /\
                 data_writes (trace st2) = data_writes (trace st)) /\
  step raw true st EvWriteOk = packet_loop raw true 0 1 st.
Proof.
  apply (safe_mode_pause (replicate 41 7%Z)
           (run (replicate 41 7%Z) false (runOta (Some (replicate 41 7%Z)) false init)
                [EvWriteOk; cmd_ack 1 0; EvFileLoaded]) 0 0).
  - reflexivity.
  - apply (Inv_run (replicate 41 7%Z) false), Inv_start;
      [reflexivity|apply reg_fresh_init|reflexivity].
Defined.

(** ** The bytes on the wire *)

Lemma u16le_mod (v : Z) : u16le (v mod 65536) = u16le v.
Proof.
  unfold u16le. change 255%Z with (Z.ones 8).
  rewrite !Z.land_ones, !Z.shiftr_div_pow2 by lia.
  change (2 ^ 8)%Z with 256%Z.
  f_equal; [|f_equal]; Z.div_mod_to_equations; lia.
Qed.

Lemma getUint16_u16le_mod (v : Z) (rest : list Z) :
  getUint16 (u16le v ++ rest) 0 = Some (v mod 65536)%Z.
Proof.
  rewrite <- u16le_mod. apply getUint16_u16le. apply Z.mod_pos_bound. lia.
Qed.

Lemma le_value_u32le (n : Z) : le_value (u32le n) = (n mod 2 ^ 32)%Z.
Proof.
  unfold u32le, le_value. change 255%Z with (Z.ones 8).
  rewrite !Z.land_ones, !Z.shiftr_div_pow2 by lia.
  change (2 ^ 8)%Z with 256%Z. change (2 ^ 16)%Z with 65536%Z.
  change (2 ^ 24)%Z with 16777216%Z. change (2 ^ 32)%Z with 4294967296%Z.
  Z.div_mod_to_equations. lia.
Qed.

Lemma byte_land (v : Z) : (0 <= Z.land v 255 < 256)%Z.
Proof.
  change 255%Z with (Z.ones 8). rewrite Z.land_ones by lia.
  apply Z.mod_pos_bound. lia.
Qed.

Lemma length_chunk (sd : list Z) (psz p : nat) :
  length (chunk sd psz p) = Nat.min psz (length sd - p * psz).
Proof. unfold chunk. rewrite length_slice. f_equal. lia. Qed.

Lemma length_pBuf (s : nat) (sd : list Z) (psz p : nat) :
  length (pBuf s sd psz p) = 3 + length (chunk sd psz p).
Proof. reflexivity. Qed.

(** X12. Every packet the inner loop writes is a 3-byte header followed
    by 1 to [pSize] payload bytes, so at most 23 bytes in safe mode and
    247 in fast mode; every packet but the last of its sector is full;
    the first two bytes read back, little-endian, as the sector index
    modulo 65536, and the bytes after the header are the chunk. *)
Theorem packet_format (raw : list Z) (fastMode : bool) (s p : nat) :
  s < totalS raw -> p < pkts (sData raw s) (pSize fastMode) ->
  let b := pBuf s (sData raw s) (pSize fastMode) p in
  let c := chunk (sData raw s) (pSize fastMode) p in
  length b = 3 + length c /\ 1 <= length c <= pSize fastMode /\
  length b <= (if fastMode then 247 else 23) /\
  (S p < pkts (sData raw s) (pSize fastMode) -> length c = pSize fastMode) /\
  getUint16 b 0 = Some (Z.of_nat s mod 65536)%Z /\
  pkt_payload b = c.
Proof.
  intros Hs Hp b c.
  pose proof (pSize_pos fastMode) as Hpos.
  assert (Hc : length c = Nat.min (pSize fastMode)
                                  (length (sData raw s) - p * pSize fastMode))
    by apply length_chunk.
  pose proof (Math_ceil_div_lower _ _ Hpos p Hp) as Hlow.
  split; [apply length_pBuf|]. split; [lia|]. split.
  - unfold b. rewrite length_pBuf. fold c. unfold pSize in *. destruct fastMode; lia.
  - split; [|split; [apply getUint16_u16le_mod|reflexivity]].
    intros Hnext. pose proof (Math_ceil_div_lower _ _ Hpos (S p) Hnext). lia.
Qed.

(** The theorem at the last packet of the second sector of a 5000-byte
    image in safe mode. *)
Lemma packet_format_witness :
  let raw := replicate 5000 7%Z in
  let b := pBuf 1 (sData raw 1) (pSize false) 45 in
  let c := chunk (sData raw 1) (pSize false) 45 in
  length b = 3 + length c /\ 1 <= length c <= pSize false /\
  length b <= 23 /\
  (46 < pkts (sData raw 1) (pSize false) -> length c = pSize false) /\
  getUint16 b 0 = Some (Z.of_nat 1 mod 65536)%Z /\
  pkt_payload b = c.
Proof.
  apply (packet_format (replicate 5000 7%Z) false 1 45); vm_compute; lia.
Defined.

(** X13. [runOta] on a connected page resets the progress to 0, shows
    'running', and writes the start command first: 6 bytes, the opcode 1
    and then the image length modulo 2^32 (the length itself below 4 GiB),
    both little-endian. Without a file, or before any connection, it does
    nothing at all. *)
Theorem start_command_format (raw : list Z) (fastMode : bool) (st0 : State) :
  ble st0 = true ->
  let st := runOta (Some raw) fastMode st0 in
  (exists bytes,
     trace st = CmdWrite bytes :: SetProgress 0 :: SetOtaStatus ota_running :: trace st0 /\
     length bytes = 6 /\ Forall (fun b => (0 <= b < 256)%Z) bytes /\
     getUint16 bytes 0 = Some 1%Z /\
     le_value (drop 2 bytes) = (Z.of_nat (length raw) mod 2 ^ 32)%Z) /\
  pc st = PcStartWrite /\ progress st = 0%Z /\ otaStatus st = ota_running /\
  runOta None fastMode st0 = st0 /\
  (forall file st', ble st' = false -> runOta file fastMode st' = st').
Proof.
  intros Hble st. unfold st, runOta. rewrite Hble. split.
  - exists (u16le 1 ++ u32le (Z.of_nat (length raw))).
    split; [done|]. split; [done|]. split.
    + unfold u16le, u32le. simpl. repeat (apply Forall_cons_2; [apply byte_land|]).
      apply Forall_nil_2.
    + split; [done|]. apply le_value_u32le.
  - do 4 (split; [done|]). intros [f|] st' Hb; [by rewrite Hb|done].
Qed.

(** The theorem at the first run after [connect]. *)
Lemma start_command_format_witness :
  let raw := replicate 5000 7%Z in
  let st := runOta (Some raw) false init in
  (exists bytes,
     trace st = CmdWrite bytes :: SetProgress 0 :: SetOtaStatus ota_running :: trace init /\
     length bytes = 6 /\ Forall (fun b => (0 <= b < 256)%Z) bytes /\
     getUint16 bytes 0 = Some 1%Z /\
     le_value (drop 2 bytes) = (Z.of_nat (length raw) mod 2 ^ 32)%Z) /\
  pc st = PcStartWrite /\ progress st = 0%Z /\ otaStatus st = ota_running /\
  runOta None false init = init /\
  (forall file st', ble st' = false -> runOta file false st' = st').
Proof.
  apply (start_command_format (replicate 5000 7%Z) false init). reflexivity.
Defined.

(** The payloads of everything written for a list of sectors. *)
Lemma payloads_sectors (raw : list Z) (fastMode : bool) (l : list nat) :
  concat (map (fun w => pkt_payload w.2) (flat_map (sector_writes raw fastMode) l))
  = concat (map (sData raw) l).
Proof.
  induction l as [|s l IH]; [done|].
  simpl. rewrite map_app, concat_app, IH. f_equal.
  unfold sector_writes. rewrite map_map. simpl.
  rewrite (map_ext _ (chunk (sData raw s) (pSize fastMode))) by done.
  apply concat_chunks, pSize_pos.
Qed.

Lemma payloads_all_writes (raw : list Z) (fastMode : bool) :
  concat (map (fun w => pkt_payload w.2) (all_writes raw fastMode)) = raw.
Proof. unfold all_writes. rewrite payloads_sectors. apply concat_sectors_of. Qed.

(** X14. The data characteristic carries the image and nothing else: the
    payloads of all packets of a transfer, in the order written, are the
    image byte for byte, in either mode; each packet adds its 3 header
    bytes, so the bytes written are the image length plus 3 per packet. *)
Theorem data_channel_carries_the_image (raw : list Z) (fastMode : bool) :
  concat (map (fun w => pkt_payload w.2) (all_writes raw fastMode)) = raw /\
  sum_list (map (fun w => length w.2) (all_writes raw fastMode))
  = length raw + 3 * length (all_writes raw fastMode).
Proof.
  split; [apply payloads_all_writes|].
  rewrite <- (payloads_all_writes raw fastMode) at 2.
  assert (Hall : Forall (fun w => length w.2 = 3 + length (pkt_payload w.2))
                        (all_writes raw fastMode)).
  { unfold all_writes. apply Forall_forall. intros w Hw.
    apply list_elem_of_In, in_flat_map in Hw as (s & _ & Hw).
    apply in_map_iff in Hw as (p & <- & _). reflexivity. }
  induction Hall as [|w l Hw _ IH]; [done|].
  simpl. rewrite length_app, Hw, IH. lia.
Qed.

(** ** Whole transfers *)

(** X15. Against a device that accepts every step, an image of at most
    65536 sectors is transferred completely, in either mode: the run ends
    in 'success' with nothing logged, it has written every packet of every
    sector in order, and the payloads it wrote are the image. *)
Theorem accepted_transfer_delivers_the_image (raw : list Z) (fastMode : bool) :
  (Z.of_nat (totalS raw) <= 65536)%Z ->
  let st := run raw fastMode (runOta (Some raw) fastMode init) (accepting raw fastMode 0) in
  pc st = PcNone /\ otaStatus st = ota_success /\ logs st = [] /\
  data_writes (trace st) = all_writes raw fastMode /\
  concat (map (fun w => pkt_payload w.2) (data_writes (trace st))) = raw.
Proof.
  intros H16 st.
  destruct (accepting_run raw fastMode 0 H16) as (H1 & H2 & H3 & H4 & _); [lia|].
  fold st in H1, H2, H3, H4.
  do 4 (split; [done|]). rewrite H4. apply payloads_all_writes.
Qed.

(** The theorem at a two-sector image in fast mode. *)
Lemma accepted_transfer_delivers_the_image_witness :
  let raw := replicate 4097 7%Z in
  let st := run raw true (runOta (Some raw) true init) (accepting raw true 0) in
  pc st = PcNone /\ otaStatus st = ota_success /\ logs st = [] /\
  data_writes (trace st) = all_writes raw true /\
  concat (map (fun w => pkt_payload w.2) (data_writes (trace st))) = raw.
Proof.
  apply (accepted_transfer_delivers_the_image (replicate 4097 7%Z) true).
  vm_compute. discriminate.
Defined.

Section Rejections.
Variable raw : list Z.
Variable fastMode : bool.

#[local] Arguments sector_key : simpl never.
#[local] Arguments cmd_key : simpl never.
#[local] Arguments pBuf : simpl never.
#[local] Arguments progress_of : simpl never.


End Rejections.



(** X17. When a sector is acknowledged with a non-zero status, the run
    fails with 'Sector Error': the progress keeps the value it had, the
    timeout of the wait is cleared, and neither the next sector nor the
    finish command is written, whatever arrives afterwards. *)
Theorem rejected_sector_ends_the_run
        (raw : list Z) (fastMode : bool) (st : State) (s w : nat) (status : Z)
        (evs : list Event) :
  pc st = PcWaitSector s w ->
  ackResolvers st !! sector_key (Z.of_nat s) = Some w ->
  (Z.of_nat s < 65536)%Z -> (0 < status < 65536)%Z ->
  let st' := run raw fastMode st (sector_ack (Z.of_nat s) status :: evs) in
  pc st' = PcNone /\
  head (logs st') = Some ("Error: Sector Error", "error") /\
  progress st' = progress st /\
  data_writes (trace st') = data_writes (trace st) /\
  cmd_writes (trace st') = cmd_writes (trace st) /\
  outcomes (trace st') = outcomes (trace st) ++ [ota_failed].
Proof.
  intros Hpc Hreg Hs Hst st'. unfold st'. rewrite run_cons.
  rewrite (handleAck_sector_ack raw fastMode st (Z.of_nat s) status w) by (done || lia).
  rewrite call_resolver_awaited by (by rewrite Hpc).
  unfold resolved. simpl pc. rewrite Hpc.
  destruct (Z.eqb_spec status 0) as [->|_]; [lia|].
  match goal with |- context [run raw fastMode ?x evs] =>
    destruct (run_ended raw fastMode evs x eq_refl) as (G1 & G2 & G3 & G4 & _ & G6 & G7 & _) end.
  rewrite G1, G2, G3, G4, G6, G7. simpl.
  rewrite data_writes_cons, data_writes_cons, !app_nil_r.
  destruct (trace_reads_cons (SetOtaStatus ota_failed)
              (Acked (sector_key (Z.of_nat s)) status :: trace st)) as [-> ->].
  destruct (trace_reads_cons (Acked (sector_key (Z.of_nat s)) status) (trace st)) as [-> ->].
  rewrite !app_nil_r. done.
Qed.

(** The theorem at sector 0 of a two-sector image, refused with status 2. *)
Lemma rejected_sector_ends_the_run_witness :
  let raw := replicate 4097 7%Z in
  let st := run raw true (runOta (Some raw) true init)
                ([EvWriteOk; cmd_ack 1 0; EvFileLoaded]
                 ++ concat (repeat (packet_events true) 17)) in
  let st' := run raw true st (sector_ack (Z.of_nat 0) 2 :: [sector_ack 0 0; EvWriteOk]) in
  pc st' = PcNone /\
  head (logs st') = Some ("Error: Sector Error", "error") /\
  progress st' = progress st /\
  data_writes (trace st') = data_writes (trace st) /\
  cmd_writes (trace st') = cmd_writes (trace st) /\
  outcomes (trace st') = outcomes (trace st) ++ [ota_failed].
Proof.
  apply (rejected_sector_ends_the_run (replicate 4097 7%Z) true
           (run (replicate 4097 7%Z) true (runOta (Some (replicate 4097 7%Z)) true init)
                ([EvWriteOk; cmd_ack 1 0; EvFileLoaded]
                 ++ concat (repeat (packet_events true) 17))) 0 1).
  - vm_compute. reflexivity.
  - vm_compute. reflexivity.
  - lia.
  - lia.
Defined.

(** ** The stored preference *)

(** X18. The throughput preference survives a reload: what
    [localStorage.setItem('ota_fast_mode', String(fastMode))] stores reads
    back as the same boolean; a storage without the key, or with any
    string other than 'true' under it, reads as safe mode; storing the
    preference touches no other key, and the last value stored wins. *)
Theorem fast_mode_preference_round_trip (fastMode : bool) (ls : gmap string string) :
  load_fast_mode (store_fast_mode fastMode ls) = fastMode /\
  load_fast_mode (delete "ota_fast_mode" ls) = false /\
  (forall v, v <> "true" -> load_fast_mode (<["ota_fast_mode" := v]> ls) = false) /\
  (forall k, k <> "ota_fast_mode" -> store_fast_mode fastMode ls !! k = ls !! k) /\
  (forall b, store_fast_mode fastMode (store_fast_mode b ls) = store_fast_mode fastMode ls).
Proof.
  unfold load_fast_mode, store_fast_mode. split.
  - rewrite lookup_insert_eq. by destruct fastMode.
  - split; [by rewrite lookup_delete_eq|]. split.
    + intros v Hv. rewrite lookup_insert_eq. apply bool_decide_eq_false. congruence.
    + split; [intros k Hk; by rewrite lookup_insert_ne|].
      intros b. apply insert_insert_eq.
Qed.

(** ** Acknowledgements that come too early *)



(** ** [connect] (lines 77-112) *)

(** Where [connect] is suspended: one constructor per [await], with the
    name of the device once it has been chosen. *)
Inductive ConnPc :=
| CNone
| CRequestDevice                   (* line 81 *)
| CGattConnect (name : string)     (* line 87 *)
| CPrimaryService (name : string)  (* line 88 *)
| CDataChar (name : string)        (* line 89 *)
| CCmdChar (name : string)         (* line 90 *)
| CCmdNotifications (name : string)  (* line 92 *)
| CDataNotifications (name : string). (* line 94 *)

(** The page: the session state, the device name shown, and [connect]. *)
Record Page := mkPage {
  session : State;
  deviceName : string;
  cpc : ConnPc
}.

Definition set_ble (v : bool) (st : State) : State :=
  mkState (ackResolvers st) (timers st) (next_timer st) (now st) (pc st) v
          (connStatus st) (otaStatus st) (progress st) (logs st) (trace st).

(** [connect] up to its first [await] (lines 78-81). *)
Definition connect (pg : Page) : Page :=
  mkPage (setConnStatus conn_busy (session pg)) (deviceName pg) CRequestDevice.

(** The [catch] block of [connect] (lines 108-111). *)
Definition connect_failed (msg : string) (pg : Page) : Page :=
  mkPage (addLog ("Auth failed: " +:+ msg) "error" (setConnStatus conn_idle (session pg)))
         (deviceName pg) CNone.

(** The awaited promise of [connect] resolves; [name] is the name of the
    device [requestDevice] resolves with. *)
Definition connect_resolved (name : string) (pg : Page) : Page :=
  match cpc pg with
  | CNone => pg
  | CRequestDevice =>
      mkPage (addLog ("Pairing with " +:+ name +:+ "...") "info" (session pg))
             (deviceName pg) (CGattConnect name)
  | CGattConnect n => mkPage (session pg) (deviceName pg) (CPrimaryService n)
  | CPrimaryService n => mkPage (session pg) (deviceName pg) (CDataChar n)
  | CDataChar n => mkPage (session pg) (deviceName pg) (CCmdChar n)
  | CCmdChar n => mkPage (session pg) (deviceName pg) (CCmdNotifications n)
  | CCmdNotifications n => mkPage (session pg) (deviceName pg) (CDataNotifications n)
  | CDataNotifications n =>
      mkPage (addLog "System Ready" "success"
                (setConnStatus conn_ready (set_ble true (session pg))))
             n CNone
  end.

Inductive ConnEvent :=
| CvResolve (name : string)
| CvReject (msg : string).

Definition connect_step (pg : Page) (ev : ConnEvent) : Page :=
  match ev with
  | CvResolve name => connect_resolved name pg
  | CvReject msg => match cpc pg with CNone => pg | _ => connect_failed msg pg end
  end.

Definition connect_run (pg : Page) (evs : list ConnEvent) : Page :=
  foldl connect_step pg evs.

(** What [connect] never touches: the run, the registry, the timers, the
    OTA status, the progress and the trace. *)
Definition same_session (st' st : State) : Prop :=
  pc st' = pc st /\ ackResolvers st' = ackResolvers st /\ timers st' = timers st /\
  next_timer st' = next_timer st /\ now st' = now st /\
  otaStatus st' = otaStatus st /\ progress st' = progress st /\ trace st' = trace st.

Lemma connect_run_app (pg : Page) (evs1 evs2 : list ConnEvent) :
  connect_run pg (evs1 ++ evs2) = connect_run (connect_run pg evs1) evs2.
Proof. apply foldl_app. Qed.

Lemma connect_run_done (pg : Page) (evs : list ConnEvent) :
  cpc pg = CNone -> connect_run pg evs = pg.
Proof.
  intros Hc. induction evs as [|ev evs IH]; [done|].
  simpl. replace (connect_step pg ev) with pg; [exact IH|].
  destruct ev; simpl; unfold connect_resolved; by rewrite Hc.
Qed.

(** X20. [connect] ends in one of two ways. While fewer than its seven
    awaits have resolved, [connStatus] is 'busy'. If one of them rejects,
    [connStatus] is 'idle', 'Auth failed: ' with the message is the
    newest log line, and [ble.current] and the device name shown are what
    they were. If all seven resolve, [connStatus] is 'ready',
    [ble.current] is set, the device name is the one [requestDevice]
    resolved with, and 'System Ready' is the newest log line. Whatever
    arrives after the end changes nothing, and in no case does [connect]
    touch a run in flight, the registry, the timers, the OTA status or the
    progress. *)
Theorem connect_outcome
        (pg0 : Page) (names : list string) (msg : string) (rest : list ConnEvent) :
  length names <= 7 ->
  let resolves := map CvResolve names in
  (length names < 7 ->
   (let pg := connect_run (connect pg0) resolves in
    cpc pg <> CNone /\ connStatus (session pg) = conn_busy /\
    ble (session pg) = ble (session pg0) /\ deviceName pg = deviceName pg0 /\
    same_session (session pg) (session pg0)) /\
   (let pg := connect_run (connect pg0) (resolves ++ CvReject msg :: rest) in
    cpc pg = CNone /\ connStatus (session pg) = conn_idle /\
    ble (session pg) = ble (session pg0) /\ deviceName pg = deviceName pg0 /\
    head (logs (session pg)) = Some ("Auth failed: " +:+ msg, "error") /\
    same_session (session pg) (session pg0))) /\
  (length names = 7 ->
   let pg := connect_run (connect pg0) (resolves ++ rest) in
   cpc pg = CNone /\ connStatus (session pg) = conn_ready /\
   ble (session pg) = true /\ Some (deviceName pg) = head names /\
   head (logs (session pg)) = Some ("System Ready", "success") /\
   same_session (session pg) (session pg0)).
Proof.
  intros Hlen resolves. unfold resolves.
  split.
  - intros Hlt. split.
    + do 7 (destruct names as [|? names];
            [simpl; repeat split; done|]).
      simpl in Hlt. lia.
    + rewrite connect_run_app.
      do 7 (destruct names as [|? names];
            [simpl; rewrite connect_run_done by done; repeat split; done|]).
      simpl in Hlt. lia.
  - intros Heq. rewrite connect_run_app.
    do 7 (destruct names as [|? names]; [simpl in Heq; lia|]).
    destruct names; [|simpl in Heq; lia].
    simpl. rewrite connect_run_done by done. repeat split; done.
Qed.

(** The theorem at a device chosen and a rejected [gatt.connect], and at
    seven resolved awaits. *)
Lemma connect_outcome_witness :
  let pg0 := mkPage init "" CNone in
  (let pg := connect_run (connect pg0) [CvResolve "ESP"; CvReject "GATT Error"] in
   connStatus (session pg) = conn_idle /\
   logs (session pg) = [("Auth failed: GATT Error", "error"); ("Pairing with ESP...", "info")])
  /\
  (let pg := connect_run (connect pg0) (replicate 7 (CvResolve "ESP")) in
   connStatus (session pg) = conn_ready /\ deviceName pg = "ESP").
Proof.
  pose proof (connect_outcome (mkPage init "" CNone) ["ESP"] "GATT Error" []) as H1.
  pose proof (connect_outcome (mkPage init "" CNone) (replicate 7 "ESP") "" []) as H2.
  split.
  - split; [|reflexivity].
    apply H1; simpl; lia.
  - split; [|reflexivity].
    destruct H2 as (_ & H2); [simpl; lia|].
    by destruct (H2 eq_refl) as (_ & H & _).
Defined.

(** The seven awaits of a successful [connect]. *)
Definition connect_ok (name : string) : list ConnEvent := replicate 7 (CvResolve name).

(** X21. [connect] does not end a run that is still suspended. After the
    link was lost during a run (the status reset to 'idle', the run
    waiting for its timeout), a successful [connect] shows 'ready' again,
    and with a file chosen the 'Deploy Firmware' button is enabled while
    the earlier run is still in flight with its resolver and its timer. *)
Theorem reconnect_enables_deploy_beside_a_suspended_run
        (pg0 : Page) (name : string) (file : list Z) :
  pc (session pg0) <> PcNone -> otaStatus (session pg0) = ota_idle ->
  let pg := connect_run (connect pg0) (connect_ok name) in
  cpc pg = CNone /\ deviceName pg = name /\
  deploy_disabled (Some file) (session pg) = false /\
  connect_disabled (session pg) = false /\
  pc (session pg) = pc (session pg0) /\
  ackResolvers (session pg) = ackResolvers (session pg0) /\
  timers (session pg) = timers (session pg0).
Proof.
  intros Hpc Hota pg. unfold pg, deploy_disabled, connect_disabled. simpl.
  rewrite Hota. done.
Qed.

(** The theorem at a run that lost the link while waiting for sector 0. *)
Lemma reconnect_enables_deploy_beside_a_suspended_run_witness :
  let pg0 := mkPage (run [7%Z] true (runOta (Some [7%Z]) true init)
                         [EvWriteOk; cmd_ack 1 0; EvFileLoaded; EvWriteOk; EvDisconnect])
                    "ESP" CNone in
  let pg := connect_run (connect pg0) (connect_ok "ESP") in
  cpc pg = CNone /\ deviceName pg = "ESP" /\
  deploy_disabled (Some [7%Z]) (session pg) = false /\
  connect_disabled (session pg) = false /\
  pc (session pg) = pc (session pg0) /\
  ackResolvers (session pg) = ackResolvers (session pg0) /\
  timers (session pg) = timers (session pg0).
Proof.
  apply (reconnect_enables_deploy_beside_a_suspended_run
           (mkPage (run [7%Z] true (runOta (Some [7%Z]) true init)
                        [EvWriteOk; cmd_ack 1 0; EvFileLoaded; EvWriteOk; EvDisconnect])
                   "ESP" CNone) "ESP" [7%Z]).
  - vm_compute. discriminate.
  - reflexivity.
Defined.
